(** * Verification of the coursework scaffolding

    Two Python files are embedded here:

    - [code/python_tutorial.py]: the classes [Square], [Multiplier],
      [LoggingTape], [Logger] and [Car], together with the local tests of
      its [__main__] block (module [Tutorial]);
    - [env_setup/setup.py]: the environment set-up script (module [Setup],
      and in [Setup.OnStdout] the script on a standard output that can
      refuse a line or fail to be flushed).

    Python code is embedded as functions in a state-and-exception monad:
    a computation takes the program state and returns the new state with
    either a value or the exception that was raised. *)

From Stdlib Require Import ZArith Lia Ascii.
From stdpp Require Import base list strings gmap pretty.

Open Scope Z_scope.
Open Scope string_scope.
Open Scope list_scope.

(** ** Effects: state and exceptions *)

Module Eff.

Inductive result (E A : Type) : Type :=
| Ok (a : A)
| Raise (e : E).
Arguments Ok {E A} a.
Arguments Raise {E A} e.

Definition M (S E A : Type) : Type := S -> S * result E A.

Definition ret {S E A} (a : A) : M S E A := fun s => (s, Ok a).

Definition raise {S E A} (e : E) : M S E A := fun s => (s, Raise e).

Definition bind {S E A B} (c : M S E A) (k : A -> M S E B) : M S E B :=
  fun s =>
    match c s with
    | (s', Ok a) => k a s'
    | (s', Raise e) => (s', Raise e)
    end.

Definition get {S E} : M S E S := fun s => (s, Ok s).

Definition modify {S E} (f : S -> S) : M S E unit := fun s => (f s, Ok tt).

(** [try ... except] : the handler sees the exception and the state the
    protected block left behind. *)
Definition catch {S E A} (c : M S E A) (h : E -> M S E A) : M S E A :=
  fun s =>
    match c s with
    | (s', Ok a) => (s', Ok a)
    | (s', Raise e) => h e s'
    end.

(** Run a block and hand its outcome, normal or not, to the caller. *)
Definition attempt {S E A} (c : M S E A) : M S E (result E A) :=
  fun s => let '(s', r) := c s in (s', Ok r).

(** [for x in xs: f x] *)
Fixpoint for_each {S E A} (xs : list A) (f : A -> M S E unit) : M S E unit :=
  match xs with
  | [] => ret tt
  | x :: xs' => bind (f x) (fun _ => for_each xs' f)
  end.

Definition is_raise {E A} (r : result E A) : bool :=
  match r with Raise _ => true | Ok _ => false end.

End Eff.

Import Eff.

Notation "'let!' x ':=' c 'in' k" := (bind c (fun x => k))
  (at level 10, x pattern, c at level 100, k at level 200).
Notation "c ';;' k" := (bind c (fun _ => k))
  (at level 100, k at level 200, right associativity).

(** ** [code/python_tutorial.py] *)

Module Tutorial.

(** *** Values, objects and the program state *)

Inductive exn : Type :=
| TypeError
| AttributeError
| AssertionError
| ValueError
| UserError (msg : string).   (* an exception raised by client code *)

Inductive class : Type := Square | Multiplier | LoggingTape | Logger | Car.

Global Instance class_eq_dec : EqDecision class.
Proof. solve_decision. Defined.

Inductive value : Type :=
| VNone
| VEllipsis
| VBool (b : bool)
| VInt (n : Z)
| VStr (s : string)
| VRef (l : nat)            (* reference to an instance on the heap *)
| VExc (e : exn).           (* exception information handed to __exit__ *)

(** An instance: its class and its attribute dictionary. *)
Record obj : Type := Obj { cls : class; dict : gmap string value }.

(** The heap of instances, the class attribute [Logger.logging_tape], and
    the lines written to standard output. *)
Record state : Type := State {
  heap : list obj;
  Logger_logging_tape : value;
  stdout : list string
}.

(** State when the module has been loaded: [logging_tape ... = None]. *)
Definition initial : state :=
  {| heap := []; Logger_logging_tape := VNone; stdout := [] |}.

Abbreviation Py := (M state exn).

(** [class Car(Logger)] : the only inheritance in the module. *)
Definition subclass (c d : class) : bool :=
  bool_decide (c = d) || (bool_decide (c = Car) && bool_decide (d = Logger)).

Definition class_name (c : class) : string :=
  match c with
  | Square => "Square" | Multiplier => "Multiplier"
  | LoggingTape => "LoggingTape" | Logger => "Logger" | Car => "Car"
  end.

Definition exn_name (e : exn) : string :=
  match e with
  | TypeError => "TypeError" | AttributeError => "AttributeError"
  | AssertionError => "AssertionError" | ValueError => "ValueError"
  | UserError m => m
  end.

(** The interpreter refuses to write an integer of more than this many
    digits in decimal ([sys.get_int_max_str_digits()], by default). *)
Definition int_max_str_digits : nat := 4300.

(** [str(v)], as [print] and f-strings use it: the text, or [ValueError]
    for an integer beyond the limit of digits.  A location stands for the
    address the interpreter shows in the default text of an instance. *)
Definition py_str (h : list obj) (v : value) : result exn string :=
  match v with
  | VNone => Ok "None"
  | VEllipsis => Ok "Ellipsis"
  | VBool true => Ok "True"
  | VBool false => Ok "False"
  | VInt n =>
      if (String.length (pretty (Z.abs n)) <=? int_max_str_digits)%nat
      then Ok (pretty n) else Raise ValueError
  | VStr s => Ok s
  | VRef l =>
      match h !! l with
      | Some o =>
          Ok ("<__main__." +:+ class_name (cls o) +:+ " object at "
              +:+ pretty l +:+ ">")
      | None => Ok ("<object at " +:+ pretty l +:+ ">")
      end
  | VExc e => Ok (exn_name e)
  end.

(** Truth value of [v], as [with] applies it to the result of [__exit__].
    Instances of the module's classes define neither [__bool__] nor
    [__len__], so they are true. *)
Definition py_bool (v : value) : bool :=
  match v with
  | VNone => false
  | VBool b => b
  | VInt n => negb (Z.eqb n 0)
  | VStr s => negb (String.eqb s "")
  | VEllipsis | VRef _ | VExc _ => true
  end.

(** A byte that continues a character of several bytes in UTF-8. *)
Definition is_continuation (a : ascii) : bool :=
  (128 <=? nat_of_ascii a)%nat && (nat_of_ascii a <? 192)%nat.

(** The characters of a string, which is held as its bytes in UTF-8: a
    byte starts a character unless it is a continuation byte. *)
Definition continues (s : string) : bool :=
  match s with
  | String b _ => is_continuation b
  | EmptyString => false
  end.

Fixpoint code_points (s : string) : list string :=
  match s with
  | EmptyString => []
  | String a rest =>
      match code_points rest with
      | group :: more =>
          if continues rest then String a group :: more
          else String a EmptyString :: group :: more
      | [] => [String a EmptyString]
      end
  end.

(** The items a string gives when iterated: its characters. *)
Definition chars (s : string) : list value := map VStr (code_points s).

(** [iter(v)] : of the values here only strings are iterable. *)
Definition py_iter (v : value) : Py (list value) :=
  match v with
  | VStr s => ret (chars s)
  | _ => raise TypeError
  end.

(** [print(v)] : the text of [v] is built first; the standard output is
    taken to accept it. *)
Definition print (v : value) : Py unit :=
  fun s =>
    match py_str (heap s) v with
    | Ok line =>
        ({| heap := heap s;
            Logger_logging_tape := Logger_logging_tape s;
            stdout := stdout s ++ [line] |}, Ok tt)
    | Raise e => (s, Raise e)
    end.

(** Allocation of a bare instance of class [c]. *)
Definition alloc (c : class) : Py nat :=
  fun s => ({| heap := heap s ++ [Obj c ∅];
               Logger_logging_tape := Logger_logging_tape s;
               stdout := stdout s |}, Ok (length (heap s))).

(** [self.name = v] *)
Definition setattr (self : nat) (name : string) (v : value) : Py unit :=
  fun s =>
    match heap s !! self with
    | Some o =>
        ({| heap := <[self := Obj (cls o) (<[name := v]> (dict o))]> (heap s);
            Logger_logging_tape := Logger_logging_tape s;
            stdout := stdout s |}, Ok tt)
    | None => (s, Raise AttributeError)
    end.

(** [del self.name] *)
Definition delattr (self : nat) (name : string) : Py unit :=
  fun s =>
    match heap s !! self with
    | Some o =>
        match dict o !! name with
        | Some _ =>
            ({| heap := <[self := Obj (cls o) (delete name (dict o))]> (heap s);
                Logger_logging_tape := Logger_logging_tape s;
                stdout := stdout s |}, Ok tt)
        | None => (s, Raise AttributeError)
        end
    | None => (s, Raise AttributeError)
    end.

(** [Logger.logging_tape = v] *)
Definition Logger_set_logging_tape (v : value) : Py unit :=
  modify (fun s => {| heap := heap s;
                      Logger_logging_tape := v;
                      stdout := stdout s |}).

(** Data attributes that class bodies define, found along the classes an
    instance of [c] inherits from: only [Logger.logging_tape]. *)
Definition class_attr (s : state) (c : class) (name : string) : option value :=
  if subclass c Logger && String.eqb name "logging_tape"
  then Some (Logger_logging_tape s) else None.

(** [v.name] for a data attribute: the instance dictionary first, then the
    class. *)
Definition getattr (v : value) (name : string) : Py value :=
  fun s =>
    match v with
    | VRef l =>
        match heap s !! l with
        | Some o =>
            match dict o !! name with
            | Some x => (s, Ok x)
            | None =>
                match class_attr s (cls o) name with
                | Some x => (s, Ok x)
                | None => (s, Raise AttributeError)
                end
            end
        | None => (s, Raise AttributeError)
        end
    | _ => (s, Raise AttributeError)
    end.

(** Looking up, on [v], a method that class [c] defines: [v] has it when
    [v] is an instance of [c] or of a subclass; otherwise the lookup
    raises [e]. *)
Definition bound_self (c : class) (v : value) (e : exn) : Py nat :=
  fun s =>
    match v with
    | VRef l =>
        match heap s !! l with
        | Some o => if subclass (cls o) c then (s, Ok l) else (s, Raise e)
        | None => (s, Raise e)
        end
    | _ => (s, Raise e)
    end.

(** *** The classes *)

(** [Square.__init__(self): pass] *)
Definition Square___init__ (self : nat) : Py value := ret VNone.

(** [Multiplier.__call__(self): pass] *)
Definition Multiplier___call__ (self : nat) : Py value := ret VNone.

(** [LoggingTape.__init__(self): self.logs = ...] *)
Definition LoggingTape___init__ (self : nat) : Py value :=
  setattr self "logs" VEllipsis;; ret VNone.

(** [LoggingTape.__enter__(self): pass] *)
Definition LoggingTape___enter__ (self : nat) : Py value := ret VNone.

(** [LoggingTape.__exit__(self, *args): pass] *)
Definition LoggingTape___exit__ (self : nat) (args : list value) : Py value :=
  ret VNone.

(** [LoggingTape.add_to_log(self, new_log): pass] *)
Definition LoggingTape_add_to_log (self : nat) (new_log : value) : Py value :=
  ret VNone.

(** [LoggingTape.print_logs(self): for log in self.logs: print(log)] *)
Definition LoggingTape_print_logs (self : nat) : Py value :=
  let! logs := getattr (VRef self) "logs" in
  let! items := py_iter logs in
  for_each items print;;
  ret VNone.

(** [Car.travel(self, distance)]:
    [self.logging_tape.add_to_log(f"Traveled Distance {distance}")].
    The method is looked up on the tape before the argument is built, and
    building the argument fails when [distance] has no text. *)
Definition Car_travel (self : nat) (distance : value) : Py value :=
  let! tape := getattr (VRef self) "logging_tape" in
  let! recv := bound_self LoggingTape tape AttributeError in
  let! s := get in
  match py_str (heap s) distance with
  | Ok text => LoggingTape_add_to_log recv (VStr ("Traveled Distance " +:+ text))
  | Raise e => raise e
  end.

(** *** Calls, construction and the [with] statement *)

(** [C(args...)].  [Square] and [LoggingTape] define [__init__], so the
    instance exists when the argument count is checked; the other classes
    inherit the constructor of [object], which takes no argument. *)
Definition instantiate (c : class) (args : list value) : Py value :=
  match c with
  | Square =>
      let! l := alloc Square in
      match args with
      | [] => Square___init__ l;; ret (VRef l)
      | _ :: _ => raise TypeError
      end
  | LoggingTape =>
      let! l := alloc LoggingTape in
      match args with
      | [] => LoggingTape___init__ l;; ret (VRef l)
      | _ :: _ => raise TypeError
      end
  | Multiplier | Logger | Car =>
      match args with
      | [] => let! l := alloc c in ret (VRef l)
      | _ :: _ => raise TypeError
      end
  end.

(** The instance that [v] refers to; a value that is no instance of the
    module's classes has no attribute to set or delete. *)
Definition instance_of (v : value) : Py nat :=
  fun s =>
    match v with
    | VRef l =>
        match heap s !! l with
        | Some _ => (s, Ok l)
        | None => (s, Raise AttributeError)
        end
    | _ => (s, Raise AttributeError)
    end.

(** [recv.__init__(args...)] : the [__init__] of the class of [recv].  The
    classes that define none inherit the one of [object], which refuses
    arguments; for a value that is no instance (a number, a string, [None])
    the call does nothing. *)
Definition call___init__ (recv : value) (args : list value) : Py value :=
  fun s =>
    match recv with
    | VRef l =>
        match heap s !! l with
        | Some o =>
            match cls o, args with
            | Square, [] => Square___init__ l s
            | LoggingTape, [] => LoggingTape___init__ l s
            | (Multiplier | Logger | Car), [] => (s, Ok VNone)
            | _, _ :: _ => (s, Raise TypeError)
            end
        | None => (s, Raise AttributeError)
        end
    | _ => (s, Ok VNone)
    end.

(** [recv.name(args...)] : the method is looked up first, then the argument
    count is checked against its signature.  Beside the methods the classes
    define, an instance has those of [object] that change it,
    [__setattr__] and [__delattr__]; the methods of [object] that only read
    an instance are not part of the model. *)
Definition call_method (recv : value) (name : string) (args : list value)
  : Py value :=
  if String.eqb name "add_to_log" then
    let! self := bound_self LoggingTape recv AttributeError in
    match args with
    | [new_log] => LoggingTape_add_to_log self new_log
    | _ => raise TypeError
    end
  else if String.eqb name "print_logs" then
    let! self := bound_self LoggingTape recv AttributeError in
    match args with
    | [] => LoggingTape_print_logs self
    | _ => raise TypeError
    end
  else if String.eqb name "__enter__" then
    let! self := bound_self LoggingTape recv AttributeError in
    match args with
    | [] => LoggingTape___enter__ self
    | _ => raise TypeError
    end
  else if String.eqb name "__exit__" then
    let! self := bound_self LoggingTape recv AttributeError in
    LoggingTape___exit__ self args
  else if String.eqb name "travel" then
    let! self := bound_self Car recv AttributeError in
    match args with
    | [distance] => Car_travel self distance
    | _ => raise TypeError
    end
  else if String.eqb name "__init__" then call___init__ recv args
  else if String.eqb name "__call__" then
    let! self := bound_self Multiplier recv AttributeError in
    match args with
    | [] => Multiplier___call__ self
    | _ => raise TypeError
    end
  else if String.eqb name "__setattr__" then
    match args with
    | [VStr attr; v] =>
        let! self := instance_of recv in
        setattr self attr v;; ret VNone
    | _ => raise TypeError
    end
  else if String.eqb name "__delattr__" then
    match args with
    | [VStr attr] =>
        let! self := instance_of recv in
        delattr self attr;; ret VNone
    | _ => raise TypeError
    end
  else raise AttributeError.

(** [f(args...)] for an instance [f]: only [Multiplier] defines [__call__],
    and it takes no argument beyond [self]. *)
Definition call (f : value) (args : list value) : Py value :=
  let! self := bound_self Multiplier f TypeError in
  match args with
  | [] => Multiplier___call__ self
  | _ :: _ => raise TypeError
  end.

(** The [with] statement, in its two halves.  Opening finds [__enter__]
    and [__exit__] on the class of the manager ([TypeError] when the class
    has none) and calls [__enter__]; its result is what [as] binds. *)
Definition open_window (mgr : value) : Py (nat * value) :=
  let! self := bound_self LoggingTape mgr TypeError in
  let! x := LoggingTape___enter__ self in
  ret (self, x).

(** Closing calls [__exit__] on every way out of the body.  After an
    exception the exception is raised again unless [__exit__] returned a
    true value. *)
Definition close_window (self : nat) (x : value) (r : result exn unit)
  : Py value :=
  match r with
  | Ok _ => LoggingTape___exit__ self [VNone; VNone; VNone];; ret x
  | Raise e =>
      let! suppress := LoggingTape___exit__ self [VExc e; VExc e; VExc e] in
      if py_bool suppress then ret x else raise e
  end.

(** [with mgr as x: body x]; the result is the value bound to [x], which
    the code after the block still sees. *)
Definition with_ (mgr : value) (body : value -> Py unit) : Py value :=
  let! (self, x) := open_window mgr in
  let! r := attempt (body x) in
  close_window self x r.

(** [v == w] *)
Definition as_int (v : value) : option Z :=
  match v with
  | VBool b => Some (if b then 1 else 0)
  | VInt n => Some n
  | _ => None
  end.

Global Instance exn_eq_dec : EqDecision exn.
Proof. solve_decision. Defined.

Global Instance value_eq_dec : EqDecision value.
Proof. solve_decision. Defined.

Definition py_eq (v w : value) : bool :=
  match as_int v, as_int w with
  | Some a, Some b => Z.eqb a b
  | _, _ => bool_decide (v = w)
  end.

(** *** Client code

    Code that uses the module: the local tests of the [__main__] block and
    the bodies of windows.  A client constructs instances, calls methods,
    reads and assigns attributes of instances, assigns
    [Logger.logging_tape], asserts, raises, opens windows and catches
    exceptions. *)
Inductive prog : Type :=
| Done
| New (c : class) (args : list value) (k : value -> prog)
| CallMethod (recv : value) (name : string) (args : list value)
             (k : value -> prog)
| Call (f : value) (args : list value) (k : value -> prog)
| GetAttr (v : value) (name : string) (k : value -> prog)
| SetAttr (target : value) (name : string) (v : value) (k : prog)
| SetSlot (v : value) (k : prog)
| Assert (b : bool) (k : prog)
| RaiseStmt (e : exn)
| With (mgr : value) (body : value -> prog) (k : value -> prog)
| Try (body : prog) (k : option exn -> prog).

Fixpoint exec (p : prog) : Py unit :=
  match p with
  | Done => ret tt
  | New c args k => let! v := instantiate c args in exec (k v)
  | CallMethod recv name args k =>
      let! v := call_method recv name args in exec (k v)
  | Call f args k => let! v := call f args in exec (k v)
  | GetAttr v name k => let! x := getattr v name in exec (k x)
  | SetAttr target name v k =>
      let! self := instance_of target in
      setattr self name v;; exec k
  | SetSlot v k => Logger_set_logging_tape v;; exec k
  | Assert b k => if b then exec k else raise AssertionError
  | RaiseStmt e => raise e
  | With mgr body k =>
      let! x := with_ mgr (fun x => exec (body x)) in exec (k x)
  | Try body k =>
      let! r := attempt (exec body) in
      match r with
      | Ok _ => exec (k None)
      | Raise e => exec (k (Some e))
      end
  end.

(** The local tests of the [__main__] block. *)
Definition local_tests : prog :=
  New Square [VStr "square1"; VInt 5] (fun square1 =>
  GetAttr square1 "name" (fun name =>
  Assert (py_eq name (VStr "square1")) (
  GetAttr square1 "length" (fun length =>
  Assert (py_eq length (VInt 5)) (
  New Multiplier [] (fun multiplier =>
  Call multiplier [VInt 5; VInt 10] (fun product =>
  Assert (py_eq product (VInt 50)) (
  New LoggingTape [] (fun mgr =>
  With mgr
    (fun tape => CallMethod tape "add_to_log" [VStr "Hi!"] (fun _ => Done))
    (fun tape =>
  CallMethod tape "print_logs" [] (fun _ =>
  New Car [] (fun car =>
  New LoggingTape [] (fun mgr' =>
  With mgr'
    (fun tape' => CallMethod car "travel" [VInt 5] (fun _ => Done))
    (fun tape' =>
  CallMethod tape' "print_logs" [] (fun _ => Done))))))))))))))).

(** The two logging tests of the block, each on its own. *)
Definition hi_test : prog :=
  New LoggingTape [] (fun mgr =>
  With mgr
    (fun tape => CallMethod tape "add_to_log" [VStr "Hi!"] (fun _ => Done))
    (fun tape => CallMethod tape "print_logs" [] (fun _ => Done))).

Definition car_test : prog :=
  New Car [] (fun car =>
  New LoggingTape [] (fun mgr =>
  With mgr
    (fun tape => CallMethod car "travel" [VInt 5] (fun _ => Done))
    (fun tape => CallMethod tape "print_logs" [] (fun _ => Done)))).

(** A window inside a window. *)
Definition nested_windows : prog :=
  New LoggingTape [] (fun first =>
  With first
    (fun _ =>
       New LoggingTape [] (fun second =>
       With second (fun _ => Done) (fun _ => Done)))
    (fun _ => Done)).

(** [for e in entries: recv.add_to_log(e)], then [k]. *)
Fixpoint append_all (recv : value) (entries : list value) (k : prog) : prog :=
  match entries with
  | [] => k
  | e :: rest => CallMethod recv "add_to_log" [e] (fun _ => append_all recv rest k)
  end.

(** A client that keeps its own reference to the recorder: it appends
    [entries] inside one window and prints the logs after it. *)
Definition window_then_dump (entries : list value) : prog :=
  New LoggingTape [] (fun recorder =>
  With recorder
    (fun _ => append_all recorder entries Done)
    (fun _ => CallMethod recorder "print_logs" [] (fun _ => Done))).

(** An instance of class [c] lives at [v]. *)
Definition is_instance (s : state) (v : value) (c : class) : Prop :=
  exists l o, v = VRef l /\ heap s !! l = Some o /\ cls o = c.

(** The state after [LoggingTape()] : one more instance, whose only
    attribute is [logs], holding [...]. *)
Definition with_new_tape (s : state) : state :=
  {| heap := heap s ++ [Obj LoggingTape (<["logs" := VEllipsis]> ∅)];
     Logger_logging_tape := Logger_logging_tape s;
     stdout := stdout s |}.

(** Two states used in the examples: a car and a recorder built by a
    client, with the slot empty; and the same with the recorder held in the
    slot, as it is while the recorder's window is open. *)
Definition car_and_tape : state :=
  fst (exec (New Car [] (fun _ => New LoggingTape [] (fun _ => Done))) initial).

Definition car_and_tape_open : state :=
  {| heap := heap car_and_tape;
     Logger_logging_tape := VRef 1;
     stdout := stdout car_and_tape |}.

(** Two recorders, the first of them held in the slot, as it is while its
    window is open. *)
Definition two_tapes_first_open : state :=
  {| heap := heap (with_new_tape (with_new_tape initial));
     Logger_logging_tape := VRef 0;
     stdout := [] |}.

(** A window whose body stores the recorder in the slot, which is what
    opening the window is meant to do; the second body then raises. *)
Definition slot_written_in_window : prog :=
  New LoggingTape [] (fun recorder =>
  With recorder (fun tape => SetSlot recorder Done) (fun _ => Done)).

Definition slot_written_then_raise : prog :=
  New LoggingTape [] (fun recorder =>
  With recorder
    (fun tape => SetSlot recorder (RaiseStmt (UserError "boom")))
    (fun _ => Done)).


(** [preserves J c] : run from a state in [J], [c] ends in a state in [J]. *)
Definition preserves (J : state -> Prop) {A} (c : Py A) : Prop :=
  forall s, J s -> J (fst (c s)).

End Tutorial.


(** ** [env_setup/setup.py] *)

Module Setup.

(** *** The host

    The script talks to the machine it runs on: the interpreter's version,
    the platform, the file system, the terminal and child processes.  The
    host is a record of operations on a world [W], so that everything the
    script decides is a function of what the host answers. *)

Inductive command : Type :=
| Shell (line : string)         (* a string, run through the shell *)
| Argv (words : list string).   (* a list of words, run directly *)

(** A path, as its components. *)
Definition path : Type := list string.

(** What a host operation gives back: a value, an interrupt from the
    keyboard, or another failure (a program that cannot be started, the
    end of the input, a directory that cannot be removed). *)
Inductive outcome (A : Type) : Type :=
| Fine (a : A)
| Interrupted
| Failed (msg : string).
Arguments Fine {A} a.
Arguments Interrupted {A}.
Arguments Failed {A} msg.

Record Host (W : Type) : Type := {
  version_info : W -> Z * Z * Z;             (* sys.version_info: major, minor, micro *)
  executable : W -> string;                  (* sys.executable *)
  platform_system : W -> string;             (* platform.system() *)
  platform_machine : W -> string;            (* platform.machine() *)
  which : string -> W -> bool;               (* shutil.which(name) is not None *)
  spawn : command -> W -> W * outcome Z;     (* run a child process to its exit status *)
  path_exists : path -> W -> bool;           (* Path.exists() *)
  path_str : path -> string;                 (* str(path) *)
  resolve : path -> W -> string;             (* str(path.resolve()) *)
  resolve_name : path -> W -> string;        (* path.resolve().name *)
  cwd_name : W -> string;                    (* Path.cwd().name *)
  rmtree : path -> W -> W * outcome unit;    (* shutil.rmtree(path) *)
  input : string -> W -> W * outcome string; (* input(prompt) *)
  lower : string -> string;                  (* str.lower *)
  strip : string -> string;                  (* str.strip *)
  command_str : command -> string;           (* str(cmd) *)
  error_str : command -> Z -> string         (* str(CalledProcessError) *)
}.

Inductive exception : Type :=
| CalledProcessError (cmd : command) (returncode : Z)
| SystemExit (code : Z)
| KeyboardInterrupt
| OtherException (msg : string).

(** [subprocess.CompletedProcess] *)
Record CompletedProcess : Type := Completed { args : command; returncode : Z }.

(** *** Configuration *)

Definition ENV_NAME : string := "csci1470".
Definition PYTHON_VERSION_REQUIRED : Z * Z := (3, 11).
Definition REQUIREMENTS_FILE : string := "env_setup/requirements.txt".
Definition INSTALL_IN_PARENT : bool := true.

Module Colors.
Definition RED : string := String "027"%char "[1;31m".
Definition GREEN : string := String "027"%char "[1;32m".
Definition YELLOW : string := String "027"%char "[1;33m".
Definition CYAN : string := String "027"%char "[1;36m".
Definition NC : string := String "027"%char "[0m".
End Colors.
Import Colors.

Definition nl : string := String "010"%char "".
Definition dquote : string := String "034"%char "".

Fixpoint repeat_str (s : string) (n : nat) : string :=
  match n with
  | O => ""
  | S n' => s +:+ repeat_str s n'
  end.

(** [sep.join(words)] *)
Fixpoint join (sep : string) (words : list string) : string :=
  match words with
  | [] => ""
  | [w] => w
  | w :: ws => w +:+ sep +:+ join sep ws
  end.

(** The first line [check_python_version] prints. *)
Definition found_line (version : Z * Z * Z) : string :=
  let '(major, minor, micro) := version in
  Colors.CYAN +:+ ("Found Python " +:+ pretty major +:+ "." +:+ pretty minor
                   +:+ "." +:+ pretty micro) +:+ Colors.NC.

(** The two lines [main] prints first. *)
Definition header : list string :=
  [Colors.CYAN +:+ "CSCI 1470 Deep Learning Environment Setup" +:+ Colors.NC;
   Colors.CYAN +:+ repeat_str "=" 50 +:+ Colors.NC].

(** Comparison of version pairs, as Python compares tuples. *)
Definition tuple_lt (a b : Z * Z) : bool :=
  (fst a <? fst b)%Z || ((fst a =? fst b)%Z && (snd a <? snd b)%Z).

Section WithHost.

Context {W : Type} (host : Host W).

(** The world and the lines printed so far. *)
Definition st : Type := W * list string.

Abbreviation Script := (M st exception).

Definition ask {A} (f : W -> A) : Script A := fun s => (s, Ok (f (fst s))).

Definition lift_outcome {A} (o : outcome A) : Script A :=
  match o with
  | Fine a => ret a
  | Interrupted => raise KeyboardInterrupt
  | Failed msg => raise (OtherException msg)
  end.

Definition act {A} (f : W -> W * outcome A) : Script A :=
  fun s => let '(w, o) := f (fst s) in lift_outcome o (w, snd s).

(** [print(line)] on a standard output that takes the line; the script
    on a standard output that can refuse one is [OnStdout], below. *)
Definition print_line (line : string) : Script unit :=
  modify (fun s : st => (fst s, (snd s ++ [line])%list)).

Definition sys_exit {A} (code : Z) : Script A := raise (SystemExit code).

Definition print_colored (message color : string) : Script unit :=
  print_line (color +:+ message +:+ NC).

(** [subprocess.run(cmd, shell=..., check=check, capture_output=...,
    text=True)] : a nonzero exit status raises [CalledProcessError] when
    [check] is set. *)
Definition subprocess_run (cmd : command) (check : bool)
  : Script CompletedProcess :=
  let! code := act (spawn W host cmd) in
  if check && negb (code =? 0)%Z
  then raise (CalledProcessError cmd code)
  else ret (Completed cmd code).

(** [run_command(cmd, check=True, capture_output=False)]; [None] is the
    result after a [CalledProcessError].  A string is run through the shell
    and a list directly, which the two forms of [command] record;
    [capture_output] only decides where the child writes, and the lines
    kept here are those the script prints itself. *)
Definition run_command (cmd : command) (check : bool)
  : Script (option CompletedProcess) :=
  catch
    (let! result := subprocess_run cmd check in ret (Some result))
    (fun e =>
       match e with
       | CalledProcessError failed rc =>
           print_colored ("Command failed: " +:+ command_str W host cmd) RED;;
           print_colored ("Error: " +:+ error_str W host failed rc) RED;;
           ret None
       | _ => raise e
       end).

Definition check_python_version : Script bool :=
  let! version := ask (version_info W host) in
  let '(major, minor, micro) := version in
  print_colored ("Found Python " +:+ pretty major +:+ "." +:+ pretty minor
                 +:+ "." +:+ pretty micro) CYAN;;
  if tuple_lt (major, minor) (3, 11) then
    print_colored ("Error: Python 3.11+ required, found " +:+ pretty major
                   +:+ "." +:+ pretty minor) RED;;
    print_colored "Install Python 3.11 from: https://python.org/downloads/" YELLOW;;
    ret false
  else if tuple_lt (3, 12) (major, minor) then
    print_colored ("Error: Python " +:+ pretty major +:+ "." +:+ pretty minor
                   +:+ " not supported by TensorFlow 2.15") RED;;
    print_colored "Please install Python 3.11 or 3.12:" YELLOW;;
    print_colored "macOS: brew install python@3.11" YELLOW;;
    print_colored "Windows/Linux: https://python.org/downloads/release/python-3119/" YELLOW;;
    ret false
  else
    print_colored ("✓ Python " +:+ pretty major +:+ "." +:+ pretty minor
                   +:+ " is compatible") GREEN;;
    ret true.

Definition get_os_info : Script (string * bool) :=
  let! system := ask (fun w => lower W host (platform_system W host w)) in
  let! architecture := ask (fun w => lower W host (platform_machine W host w)) in
  let result :=
    if String.eqb system "darwin" then
      ("mac", String.eqb architecture "arm64" || String.eqb architecture "aarch64")
    else if String.eqb system "windows" then ("windows", false)
    else ("linux", false) in
  print_colored ("Detected: " +:+ system +:+ " (" +:+ architecture +:+ ")") CYAN;;
  ret result.

(** The loop over the Homebrew packages: install what [brew list] does
    not find. *)
Definition brew_dep (dep : string) : Script unit :=
  let! result := run_command (Shell ("brew list " +:+ dep)) false in
  match result with
  | Some r =>
      if negb (returncode r =? 0)%Z
      then run_command (Shell ("brew install " +:+ dep)) true;; ret tt
      else ret tt
  | None => ret tt
  end.

Definition check_system_dependencies (os_type : string) : Script bool :=
  print_colored "Checking system dependencies..." CYAN;;
  if String.eqb os_type "mac" then
    let! brew := ask (which W host "brew") in
    if negb brew then
      print_colored "Homebrew not found. Please install it first:" YELLOW;;
      print_colored "Visit: https://brew.sh/" YELLOW;;
      print_colored
        ("Or run: /bin/bash -c " +:+ dquote +:+
         "$(curl -fsSL https://raw.githubusercontent.com/Homebrew/install/HEAD/install.sh)"
         +:+ dquote) YELLOW;;
      ret false
    else
      for_each ["python@3.11"; "hdf5"; "pkg-config"] brew_dep;;
      ret true
  else if String.eqb os_type "linux" then
    let! apt := ask (which W host "apt-get") in
    if apt then
      run_command (Shell "sudo apt-get update") true;;
      run_command
        (Shell ("sudo apt-get install -y " +:+
                join " " ["python3.11"; "python3.11-venv"; "python3.11-dev";
                          "libhdf5-dev"; "pkg-config"; "build-essential"])) true;;
      ret true
    else
      let! yum := ask (which W host "yum") in
      if yum then
        run_command
          (Shell ("sudo yum install -y " +:+
                  join " " ["python311"; "python311-devel"; "hdf5-devel";
                            "pkgconfig"; "gcc"; "gcc-c++"])) true;;
        ret true
      else
        let! dnf := ask (which W host "dnf") in
        if dnf then
          run_command
            (Shell ("sudo dnf install -y " +:+
                    join " " ["python3.11"; "python3-devel"; "hdf5-devel";
                              "pkgconfig"; "gcc"; "gcc-c++"])) true;;
          ret true
        else ret true
  else ret true.

Definition create_virtual_environment : Script (option path) :=
  let! env_path :=
    if INSTALL_IN_PARENT then
      let env_path := [".."; ENV_NAME] in
      let! resolved := ask (resolve W host env_path) in
      print_colored ("Installing virtual environment in parent directory: "
                     +:+ resolved) CYAN;;
      ret env_path
    else ret [ENV_NAME] in
  let create :=
    let! resolved := ask (resolve W host env_path) in
    print_colored ("Creating virtual environment '" +:+ ENV_NAME +:+ "' at "
                   +:+ resolved +:+ "...") CYAN;;
    let! exe := ask (executable W host) in
    let! result :=
      run_command (Argv [exe; "-m"; "venv"; path_str W host env_path]) true in
    match result with
    | None => ret None
    | Some _ =>
        print_colored "Virtual environment created successfully!" GREEN;;
        ret (Some env_path)
    end in
  let! present := ask (path_exists W host env_path) in
  if present then
    let! resolved := ask (resolve W host env_path) in
    print_colored ("Virtual environment '" +:+ ENV_NAME +:+ "' already exists at "
                   +:+ resolved +:+ ".") YELLOW;;
    let! answer := act (input W host "Do you want to recreate it? (y/N): ") in
    let response := lower W host (strip W host answer) in
    if String.eqb response "y" then
      print_colored "Removing existing environment..." YELLOW;;
      act (rmtree W host env_path);;
      create
    else ret (Some env_path)
  else create.

Definition get_activation_command (env_path : path) (os_type : string) : string :=
  if String.eqb os_type "windows" then "../csci1470/Scripts/activate"
  else "source " +:+ "../csci1470/bin/activate".

Definition install_requirements (env_path : path) (os_type : string)
  : Script bool :=
  let! present := ask (path_exists W host [REQUIREMENTS_FILE]) in
  if negb present then
    print_colored ("Error: " +:+ REQUIREMENTS_FILE +:+ " not found!") RED;;
    ret false
  else
    let '(python_exe, pip_exe) :=
      if String.eqb os_type "windows"
      then ((env_path ++ ["Scripts"; "python.exe"])%list,
            (env_path ++ ["Scripts"; "pip.exe"])%list)
      else ((env_path ++ ["bin"; "python"])%list,
            (env_path ++ ["bin"; "pip"])%list) in
    print_colored "Upgrading pip..." CYAN;;
    let! result :=
      run_command (Argv [path_str W host python_exe; "-m"; "pip"; "install";
                         "--upgrade"; "pip"]) true in
    match result with
    | None => ret false
    | Some _ =>
        print_colored "Installing packages from requirements.txt..." CYAN;;
        let! result :=
          run_command (Argv [path_str W host pip_exe; "install"; "-r";
                             REQUIREMENTS_FILE]) true in
        match result with
        | Some _ => ret true
        | None =>
            print_colored "Package installation failed. Trying with --no-cache-dir..." YELLOW;;
            let! result :=
              run_command (Argv [path_str W host pip_exe; "install";
                                 "--no-cache-dir"; "-r"; REQUIREMENTS_FILE]) true in
            match result with
            | None => ret false
            | Some _ => ret true
            end
        end
    end.

Definition setup_jupyter_kernel (env_path : path) (os_type : string)
  : Script bool :=
  let python_exe :=
    if String.eqb os_type "windows"
    then (env_path ++ ["Scripts"; "python.exe"])%list
    else (env_path ++ ["bin"; "python"])%list in
  print_colored "Setting up Jupyter kernel..." CYAN;;
  let kernel_name := ENV_NAME in
  let display_name := "DL-S25 (3.11) - " +:+ ENV_NAME in
  let! result :=
    run_command (Argv [path_str W host python_exe; "-m"; "ipykernel"; "install";
                       "--user"; "--name"; kernel_name;
                       "--display-name"; display_name]) true in
  match result with
  | Some _ =>
      print_colored "Jupyter kernel installed successfully!" GREEN;;
      ret true
  | None =>
      print_colored "Jupyter kernel installation failed" RED;;
      ret false
  end.

(** The loop of [verify_installation]: it returns at the first package
    whose import fails. *)
Fixpoint verify_imports (python_exe : path) (packages : list string)
  : Script bool :=
  match packages with
  | [] => ret true
  | package :: rest =>
      let! result :=
        run_command (Argv [path_str W host python_exe; "-c";
                           "import " +:+ package +:+ "; print(f'" +:+ package
                           +:+ " OK')"]) true in
      match result with
      | Some r =>
          if (returncode r =? 0)%Z then
            print_colored ("✓ " +:+ package) GREEN;;
            verify_imports python_exe rest
          else
            print_colored ("✗ " +:+ package +:+ " - Import failed") RED;;
            ret false
      | None =>
          print_colored ("✗ " +:+ package +:+ " - Import failed") RED;;
          ret false
      end
  end.

Definition verify_installation (env_path : path) (os_type : string)
  : Script bool :=
  let python_exe :=
    if String.eqb os_type "windows"
    then (env_path ++ ["Scripts"; "python.exe"])%list
    else (env_path ++ ["bin"; "python"])%list in
  print_colored "Verifying installation..." CYAN;;
  verify_imports python_exe
    ["numpy"; "tensorflow"; "pandas"; "matplotlib"; "sklearn"; "PIL"; "h5py"].

Definition print_next_steps (env_path : path) (os_type : string) : Script unit :=
  let activation_cmd := get_activation_command env_path os_type in
  print_colored (nl +:+ repeat_str "=" 60) GREEN;;
  print_colored "SETUP COMPLETE!" GREEN;;
  print_colored (repeat_str "=" 60) GREEN;;
  let! resolved := ask (resolve W host env_path) in
  print_colored (nl +:+ "Virtual environment created at: " +:+ resolved) CYAN;;
  print_colored (nl +:+ "Intended Directory Structure:") CYAN;;
  let! parent_name := ask (resolve_name W host [".."]) in
  let! current_name := ask (cwd_name W host) in
  print_colored ("  " +:+ parent_name +:+ "/") YELLOW;;
  print_colored ("  ├── " +:+ ENV_NAME +:+ "/          # Virtual environment") YELLOW;;
  print_colored ("  └── " +:+ current_name
                 +:+ "/      # Assignment repo (current directory)") YELLOW;;
  print_colored (nl +:+ "To activate your environment:") CYAN;;
  print_colored ("  " +:+ activation_cmd) YELLOW;;
  print_colored (nl +:+ "To deactivate:") CYAN;;
  print_colored "  deactivate" YELLOW;;
  if INSTALL_IN_PARENT then
    print_colored (nl +:+ "Working on Future Assignments!!!") CYAN;;
    print_colored "  1. Clone new assignment repos in the parent directory" YELLOW;;
    print_colored "  2. Activate the environment from any assignment directory" YELLOW;;
    print_colored "  3. The same environment will be used for all assignments" YELLOW
  else ret tt.

Definition main : Script unit :=
  print_colored "CSCI 1470 Deep Learning Environment Setup" CYAN;;
  print_colored (repeat_str "=" 50) CYAN;;
  let! compatible := check_python_version in
  if negb compatible then
    print_colored (nl +:+ "Please install Python 3.11.x and run this script again.") RED;;
    print_colored "Follow the troubleshooting steps on the handout if you are having issues!" YELLOW;;
    sys_exit 1
  else
  let! (os_type, is_apple_silicon) := get_os_info in
  let! deps := check_system_dependencies os_type in
  if negb deps then
    print_colored "Please install required system dependencies and run again. Follow the troubleshooting steps on the handout if you are having issues!" RED;;
    sys_exit 1
  else
  let! env := create_virtual_environment in
  match env with
  | None =>
      print_colored "Failed to create virtual environment. Follow the troubleshooting steps on the handout if you are having issues!" RED;;
      sys_exit 1
  | Some env_path =>
      let! installed := install_requirements env_path os_type in
      if negb installed then
        print_colored "Failed to install requirements. Follow the troubleshooting steps on the handout if you are having issues!" RED;;
        sys_exit 1
      else
      setup_jupyter_kernel env_path os_type;;
      let! verified := verify_installation env_path os_type in
      (if negb verified then
         print_colored "Installation verification failed. Some packages may not work correctly." YELLOW;;
         print_colored (nl +:+ "Troubleshooting:") CYAN;;
         print_colored " -  Follow the troubleshooting steps on the handout if you are having issues!" YELLOW
       else ret tt);;
      print_next_steps env_path os_type
  end.

(** The commands the steps of the script run. *)
Definition python_of (env_path : path) (os_type : string) : path :=
  if String.eqb os_type "windows"
  then env_path ++ ["Scripts"; "python.exe"]
  else env_path ++ ["bin"; "python"].







Definition import_command (env_path : path) (os_type package : string) : command :=
  Argv [path_str W host (python_of env_path os_type); "-c";
        "import " +:+ package +:+ "; print(f'" +:+ package +:+ " OK')"].

Definition test_imports : list string :=
  ["numpy"; "tensorflow"; "pandas"; "matplotlib"; "sklearn"; "PIL"; "h5py"].


(** The command [cmd] exits with status 0 wherever it is run. *)
Definition always_succeeds (cmd : command) : Prop :=
  forall w, exists w', spawn W host cmd w = (w', Fine 0).

(** The command [cmd] exits with a nonzero status wherever it is run. *)
Definition always_fails (cmd : command) : Prop :=
  forall w, exists w' code, spawn W host cmd w = (w', Fine code) /\ code <> 0.

(** [outcome_in R P c] : wherever [c] is run, the exception it raises is in
    [R], or the value it returns is in [P]. *)
Definition outcome_in {A} (R : exception -> Prop) (P : A -> Prop) (c : Script A)
  : Prop :=
  forall s, match snd (c s) with Ok a => P a | Raise e => R e end.

(** The exceptions that come from the host: an interrupt from the
    keyboard, or a failure of an operation. *)
Definition host_failure (e : exception) : Prop :=
  e = KeyboardInterrupt \/ exists msg, e = OtherException msg.

(** A host failure, or [SystemExit(1)]. *)
Definition failure_or_exit_1 (e : exception) : Prop :=
  host_failure e \/ e = SystemExit 1.

(** The two lines [run_command] prints when [cmd] exited with [code]. *)
Definition failure_lines (cmd : command) (code : Z) : list string :=
  [RED +:+ ("Command failed: " +:+ command_str W host cmd) +:+ NC;
   RED +:+ ("Error: " +:+ error_str W host cmd code) +:+ NC].

(** The lines [verify_imports] prints for packages whose import works. *)
Definition ok_lines (packages : list string) : list string :=
  map (fun package => GREEN +:+ ("✓ " +:+ package) +:+ NC) packages.

End WithHost.

(** *** A sample host

    A Linux machine with [apt-get], running Python [version], on which
    every child process exits with status [code] and the virtual
    environment does not exist yet. *)

Definition ascii_lower (a : ascii) : ascii :=
  let n := nat_of_ascii a in
  if (65 <=? n)%nat && (n <=? 90)%nat then ascii_of_nat (n + 32) else a.

Fixpoint str_lower (s : string) : string :=
  match s with
  | EmptyString => EmptyString
  | String a s' => String (ascii_lower a) (str_lower s')
  end.

Definition show_command (cmd : command) : string :=
  match cmd with
  | Shell line => line
  | Argv words => "[" +:+ join ", " (map (fun w => "'" +:+ w +:+ "'") words) +:+ "]"
  end.

Definition linux_host (version : Z * Z * Z) (code : Z) : Host unit := {|
  version_info := fun _ => version;
  executable := fun _ => "/usr/bin/python3";
  platform_system := fun _ => "Linux";
  platform_machine := fun _ => "x86_64";
  which := fun name _ => String.eqb name "apt-get";
  spawn := fun _ w => (w, Fine code);
  path_exists := fun p _ => bool_decide (p = [REQUIREMENTS_FILE]);
  path_str := join "/";
  resolve := fun p _ => "/home/student/" +:+ join "/" p;
  resolve_name := fun _ _ => "student";
  cwd_name := fun _ => "hw1";
  rmtree := fun _ w => (w, Fine tt);
  input := fun _ w => (w, Fine "n");
  lower := str_lower;
  strip := fun s => s;
  command_str := show_command;
  error_str := fun cmd rc =>
    "Command '" +:+ show_command cmd +:+ "' returned non-zero exit status "
    +:+ pretty rc +:+ "."
|}.

(** A second sample host: the same machine with Python 3.11, where
    [present] tells which paths exist, the user types [answer], and a
    command exits with status [status cmd]. *)
Definition custom_host (present : path -> bool) (answer : string)
    (status : command -> Z) : Host unit := {|
  version_info := fun _ => (3, 11, 0);
  executable := fun _ => "/usr/bin/python3";
  platform_system := fun _ => "Linux";
  platform_machine := fun _ => "x86_64";
  which := fun name _ => String.eqb name "apt-get";
  spawn := fun cmd w => (w, Fine (status cmd));
  path_exists := fun p _ => present p;
  path_str := join "/";
  resolve := fun p _ => "/home/student/" +:+ join "/" p;
  resolve_name := fun _ _ => "student";
  cwd_name := fun _ => "hw1";
  rmtree := fun _ w => (w, Fine tt);
  input := fun _ w => (w, Fine answer);
  lower := str_lower;
  strip := fun s => s;
  command_str := show_command;
  error_str := fun cmd rc =>
    "Command '" +:+ show_command cmd +:+ "' returned non-zero exit status "
    +:+ pretty rc +:+ "."
|}.

(** Statuses under which the virtual environment and the packages install,
    while the kernel registration and the imports fail. *)
Definition installs_only (cmd : command) : Z :=
  match cmd with
  | Argv (_ :: words) =>
      if existsb (String.eqb "venv") words || existsb (String.eqb "pip") words
         || existsb (String.eqb "-r") words
      then 0 else 1
  | _ => 1
  end.

(** *** The script on its standard output

    Above, a printed line is always taken.  The real [print] writes to the
    standard output of the process, which can refuse a line: its encoding
    may lack a character of the line (the check mark, the cross and the
    branches of the directory tree are outside ASCII), or the write itself
    may fail.  [print] then raises an exception, a subclass of [Exception],
    and prints nothing.  What is written may also stay in a buffer until the
    process exits; when that last flush fails, the process ends with
    status 120. *)
Record Stdout (W : Type) : Type := {
  refuses : string -> W -> option string;    (* str(e) of what print(line) raises, if it raises *)
  flushes : W -> bool                        (* the flush of stdout at exit succeeds *)
}.

Module OnStdout.

Section WithStdout.

Context {W : Type} (host : Host W) (tty : Stdout W).

Abbreviation Script := (M (st (W := W)) exception).

(** [print(line)] *)
Definition print_line (line : string) : Script unit :=
  fun s =>
    match refuses W tty line (fst s) with
    | Some text => (s, Raise (OtherException text))
    | None => ((fst s, (snd s ++ [line])%list), Ok tt)
    end.

Definition print_colored (message color : string) : Script unit :=
  print_line (color +:+ message +:+ NC).

(** The functions of the script, statement by statement as above, printing
    through this [print_colored]: a refused line ends the function with the
    exception of [print], also inside the handler of [run_command]. *)
Definition run_command (cmd : command) (check : bool)
  : Script (option CompletedProcess) :=
  catch
    (let! result := subprocess_run host cmd check in ret (Some result))
    (fun e =>
       match e with
       | CalledProcessError failed rc =>
           print_colored ("Command failed: " +:+ command_str W host cmd) RED;;
           print_colored ("Error: " +:+ error_str W host failed rc) RED;;
           ret None
       | _ => raise e
       end).

Definition check_python_version : Script bool :=
  let! version := ask (version_info W host) in
  let '(major, minor, micro) := version in
  print_colored ("Found Python " +:+ pretty major +:+ "." +:+ pretty minor
                 +:+ "." +:+ pretty micro) CYAN;;
  if tuple_lt (major, minor) (3, 11) then
    print_colored ("Error: Python 3.11+ required, found " +:+ pretty major
                   +:+ "." +:+ pretty minor) RED;;
    print_colored "Install Python 3.11 from: https://python.org/downloads/" YELLOW;;
    ret false
  else if tuple_lt (3, 12) (major, minor) then
    print_colored ("Error: Python " +:+ pretty major +:+ "." +:+ pretty minor
                   +:+ " not supported by TensorFlow 2.15") RED;;
    print_colored "Please install Python 3.11 or 3.12:" YELLOW;;
    print_colored "macOS: brew install python@3.11" YELLOW;;
    print_colored "Windows/Linux: https://python.org/downloads/release/python-3119/" YELLOW;;
    ret false
  else
    print_colored ("✓ Python " +:+ pretty major +:+ "." +:+ pretty minor
                   +:+ " is compatible") GREEN;;
    ret true.

Definition get_os_info : Script (string * bool) :=
  let! system := ask (fun w => lower W host (platform_system W host w)) in
  let! architecture := ask (fun w => lower W host (platform_machine W host w)) in
  let result :=
    if String.eqb system "darwin" then
      ("mac", String.eqb architecture "arm64" || String.eqb architecture "aarch64")
    else if String.eqb system "windows" then ("windows", false)
    else ("linux", false) in
  print_colored ("Detected: " +:+ system +:+ " (" +:+ architecture +:+ ")") CYAN;;
  ret result.

(** The loop over the Homebrew packages: install what [brew list] does
    not find. *)
Definition brew_dep (dep : string) : Script unit :=
  let! result := run_command (Shell ("brew list " +:+ dep)) false in
  match result with
  | Some r =>
      if negb (returncode r =? 0)%Z
      then run_command (Shell ("brew install " +:+ dep)) true;; ret tt
      else ret tt
  | None => ret tt
  end.

Definition check_system_dependencies (os_type : string) : Script bool :=
  print_colored "Checking system dependencies..." CYAN;;
  if String.eqb os_type "mac" then
    let! brew := ask (which W host "brew") in
    if negb brew then
      print_colored "Homebrew not found. Please install it first:" YELLOW;;
      print_colored "Visit: https://brew.sh/" YELLOW;;
      print_colored
        ("Or run: /bin/bash -c " +:+ dquote +:+
         "$(curl -fsSL https://raw.githubusercontent.com/Homebrew/install/HEAD/install.sh)"
         +:+ dquote) YELLOW;;
      ret false
    else
      for_each ["python@3.11"; "hdf5"; "pkg-config"] brew_dep;;
      ret true
  else if String.eqb os_type "linux" then
    let! apt := ask (which W host "apt-get") in
    if apt then
      run_command (Shell "sudo apt-get update") true;;
      run_command
        (Shell ("sudo apt-get install -y " +:+
                join " " ["python3.11"; "python3.11-venv"; "python3.11-dev";
                          "libhdf5-dev"; "pkg-config"; "build-essential"])) true;;
      ret true
    else
      let! yum := ask (which W host "yum") in
      if yum then
        run_command
          (Shell ("sudo yum install -y " +:+
                  join " " ["python311"; "python311-devel"; "hdf5-devel";
                            "pkgconfig"; "gcc"; "gcc-c++"])) true;;
        ret true
      else
        let! dnf := ask (which W host "dnf") in
        if dnf then
          run_command
            (Shell ("sudo dnf install -y " +:+
                    join " " ["python3.11"; "python3-devel"; "hdf5-devel";
                              "pkgconfig"; "gcc"; "gcc-c++"])) true;;
          ret true
        else ret true
  else ret true.

Definition create_virtual_environment : Script (option path) :=
  let! env_path :=
    if INSTALL_IN_PARENT then
      let env_path := [".."; ENV_NAME] in
      let! resolved := ask (resolve W host env_path) in
      print_colored ("Installing virtual environment in parent directory: "
                     +:+ resolved) CYAN;;
      ret env_path
    else ret [ENV_NAME] in
  let create :=
    let! resolved := ask (resolve W host env_path) in
    print_colored ("Creating virtual environment '" +:+ ENV_NAME +:+ "' at "
                   +:+ resolved +:+ "...") CYAN;;
    let! exe := ask (executable W host) in
    let! result :=
      run_command (Argv [exe; "-m"; "venv"; path_str W host env_path]) true in
    match result with
    | None => ret None
    | Some _ =>
        print_colored "Virtual environment created successfully!" GREEN;;
        ret (Some env_path)
    end in
  let! present := ask (path_exists W host env_path) in
  if present then
    let! resolved := ask (resolve W host env_path) in
    print_colored ("Virtual environment '" +:+ ENV_NAME +:+ "' already exists at "
                   +:+ resolved +:+ ".") YELLOW;;
    let! answer := act (input W host "Do you want to recreate it? (y/N): ") in
    let response := lower W host (strip W host answer) in
    if String.eqb response "y" then
      print_colored "Removing existing environment..." YELLOW;;
      act (rmtree W host env_path);;
      create
    else ret (Some env_path)
  else create.

Definition install_requirements (env_path : path) (os_type : string)
  : Script bool :=
  let! present := ask (path_exists W host [REQUIREMENTS_FILE]) in
  if negb present then
    print_colored ("Error: " +:+ REQUIREMENTS_FILE +:+ " not found!") RED;;
    ret false
  else
    let '(python_exe, pip_exe) :=
      if String.eqb os_type "windows"
      then ((env_path ++ ["Scripts"; "python.exe"])%list,
            (env_path ++ ["Scripts"; "pip.exe"])%list)
      else ((env_path ++ ["bin"; "python"])%list,
            (env_path ++ ["bin"; "pip"])%list) in
    print_colored "Upgrading pip..." CYAN;;
    let! result :=
      run_command (Argv [path_str W host python_exe; "-m"; "pip"; "install";
                         "--upgrade"; "pip"]) true in
    match result with
    | None => ret false
    | Some _ =>
        print_colored "Installing packages from requirements.txt..." CYAN;;
        let! result :=
          run_command (Argv [path_str W host pip_exe; "install"; "-r";
                             REQUIREMENTS_FILE]) true in
        match result with
        | Some _ => ret true
        | None =>
            print_colored "Package installation failed. Trying with --no-cache-dir..." YELLOW;;
            let! result :=
              run_command (Argv [path_str W host pip_exe; "install";
                                 "--no-cache-dir"; "-r"; REQUIREMENTS_FILE]) true in
            match result with
            | None => ret false
            | Some _ => ret true
            end
        end
    end.

Definition setup_jupyter_kernel (env_path : path) (os_type : string)
  : Script bool :=
  let python_exe :=
    if String.eqb os_type "windows"
    then (env_path ++ ["Scripts"; "python.exe"])%list
    else (env_path ++ ["bin"; "python"])%list in
  print_colored "Setting up Jupyter kernel..." CYAN;;
  let kernel_name := ENV_NAME in
  let display_name := "DL-S25 (3.11) - " +:+ ENV_NAME in
  let! result :=
    run_command (Argv [path_str W host python_exe; "-m"; "ipykernel"; "install";
                       "--user"; "--name"; kernel_name;
                       "--display-name"; display_name]) true in
  match result with
  | Some _ =>
      print_colored "Jupyter kernel installed successfully!" GREEN;;
      ret true
  | None =>
      print_colored "Jupyter kernel installation failed" RED;;
      ret false
  end.

(** The loop of [verify_installation]: it returns at the first package
    whose import fails. *)
Fixpoint verify_imports (python_exe : path) (packages : list string)
  : Script bool :=
  match packages with
  | [] => ret true
  | package :: rest =>
      let! result :=
        run_command (Argv [path_str W host python_exe; "-c";
                           "import " +:+ package +:+ "; print(f'" +:+ package
                           +:+ " OK')"]) true in
      match result with
      | Some r =>
          if (returncode r =? 0)%Z then
            print_colored ("✓ " +:+ package) GREEN;;
            verify_imports python_exe rest
          else
            print_colored ("✗ " +:+ package +:+ " - Import failed") RED;;
            ret false
      | None =>
          print_colored ("✗ " +:+ package +:+ " - Import failed") RED;;
          ret false
      end
  end.

Definition verify_installation (env_path : path) (os_type : string)
  : Script bool :=
  let python_exe :=
    if String.eqb os_type "windows"
    then (env_path ++ ["Scripts"; "python.exe"])%list
    else (env_path ++ ["bin"; "python"])%list in
  print_colored "Verifying installation..." CYAN;;
  verify_imports python_exe
    ["numpy"; "tensorflow"; "pandas"; "matplotlib"; "sklearn"; "PIL"; "h5py"].

Definition print_next_steps (env_path : path) (os_type : string) : Script unit :=
  let activation_cmd := get_activation_command env_path os_type in
  print_colored (nl +:+ repeat_str "=" 60) GREEN;;
  print_colored "SETUP COMPLETE!" GREEN;;
  print_colored (repeat_str "=" 60) GREEN;;
  let! resolved := ask (resolve W host env_path) in
  print_colored (nl +:+ "Virtual environment created at: " +:+ resolved) CYAN;;
  print_colored (nl +:+ "Intended Directory Structure:") CYAN;;
  let! parent_name := ask (resolve_name W host [".."]) in
  let! current_name := ask (cwd_name W host) in
  print_colored ("  " +:+ parent_name +:+ "/") YELLOW;;
  print_colored ("  ├── " +:+ ENV_NAME +:+ "/          # Virtual environment") YELLOW;;
  print_colored ("  └── " +:+ current_name
                 +:+ "/      # Assignment repo (current directory)") YELLOW;;
  print_colored (nl +:+ "To activate your environment:") CYAN;;
  print_colored ("  " +:+ activation_cmd) YELLOW;;
  print_colored (nl +:+ "To deactivate:") CYAN;;
  print_colored "  deactivate" YELLOW;;
  if INSTALL_IN_PARENT then
    print_colored (nl +:+ "Working on Future Assignments!!!") CYAN;;
    print_colored "  1. Clone new assignment repos in the parent directory" YELLOW;;
    print_colored "  2. Activate the environment from any assignment directory" YELLOW;;
    print_colored "  3. The same environment will be used for all assignments" YELLOW
  else ret tt.

Definition main : Script unit :=
  print_colored "CSCI 1470 Deep Learning Environment Setup" CYAN;;
  print_colored (repeat_str "=" 50) CYAN;;
  let! compatible := check_python_version in
  if negb compatible then
    print_colored (nl +:+ "Please install Python 3.11.x and run this script again.") RED;;
    print_colored "Follow the troubleshooting steps on the handout if you are having issues!" YELLOW;;
    sys_exit 1
  else
  let! (os_type, is_apple_silicon) := get_os_info in
  let! deps := check_system_dependencies os_type in
  if negb deps then
    print_colored "Please install required system dependencies and run again. Follow the troubleshooting steps on the handout if you are having issues!" RED;;
    sys_exit 1
  else
  let! env := create_virtual_environment in
  match env with
  | None =>
      print_colored "Failed to create virtual environment. Follow the troubleshooting steps on the handout if you are having issues!" RED;;
      sys_exit 1
  | Some env_path =>
      let! installed := install_requirements env_path os_type in
      if negb installed then
        print_colored "Failed to install requirements. Follow the troubleshooting steps on the handout if you are having issues!" RED;;
        sys_exit 1
      else
      setup_jupyter_kernel env_path os_type;;
      let! verified := verify_installation env_path os_type in
      (if negb verified then
         print_colored "Installation verification failed. Some packages may not work correctly." YELLOW;;
         print_colored (nl +:+ "Troubleshooting:") CYAN;;
         print_colored " -  Follow the troubleshooting steps on the handout if you are having issues!" YELLOW
       else ret tt);;
      print_next_steps env_path os_type
  end.

(** The [__main__] block: the exit status of the process.  An exception
    of [main] other than [SystemExit] is answered by a line and
    [sys.exit(1)]; when that line cannot be printed either, the exception
    of [print] ends the process, with status 1 as well.  [main] exits only
    by [sys.exit(1)].  Whatever the status, a standard output that cannot
    be flushed at exit turns it into 120.  Interrupts are those of the
    host's operations: none arrives inside a handler. *)
Definition script (w : W) : st * Z :=
  let '(s, status) :=
    match main (w, []) with
    | (s, Ok _) => (s, 0)
    | (s, Raise (SystemExit code)) => (s, code)
    | (s, Raise KeyboardInterrupt) =>
        (fst (print_colored (nl +:+ "Setup interrupted by user.") YELLOW s), 1)
    | (s, Raise (CalledProcessError cmd rc)) =>
        (fst (print_colored (nl +:+ "Unexpected error: " +:+ error_str W host cmd rc) RED s), 1)
    | (s, Raise (OtherException msg)) =>
        (fst (print_colored (nl +:+ "Unexpected error: " +:+ msg) RED s), 1)
    end in
  (s, if flushes W tty (fst s) then status else 120).

(** The line [check_python_version] prints for an accepted version. *)
Definition compatible_line (v : Z * Z) : string :=
  GREEN +:+ ("✓ Python " +:+ pretty (fst v) +:+ "." +:+ pretty (snd v)
             +:+ " is compatible") +:+ NC.

(** The standard output takes every line. *)
Definition takes_all : Prop := forall line w, refuses W tty line w = None.

End WithStdout.

End OnStdout.

(** *** Sample standard outputs *)

(** A terminal in UTF-8. *)
Definition utf8_stdout {W} : Stdout W := {|
  refuses := fun _ _ => None;
  flushes := fun _ => true
|}.

(** A standard output sent to a full device through a buffer that holds
    all the script prints: every [print] succeeds, the flush at exit
    fails. *)
Definition full_stdout {W} : Stdout W := {|
  refuses := fun _ _ => None;
  flushes := fun _ => false
|}.

Definition byte_of (a : ascii) : Z := Z.of_nat (nat_of_ascii a).

(** The low six bits of the next [n] bytes, appended to [acc]. *)
Fixpoint continuation (n : nat) (acc : Z) (s : string) : Z :=
  match n, s with
  | S n', String a rest =>
      continuation n' (Z.lor (Z.shiftl acc 6) (Z.land (byte_of a) 63)) rest
  | _, _ => acc
  end.

(** The code point of the UTF-8 sequence with first byte [b] and
    following bytes [rest]. *)
Definition code_point (b : Z) (rest : string) : Z :=
  if (b <? 224)%Z then continuation 1 (Z.land b 31) rest
  else if (b <? 240)%Z then continuation 2 (Z.land b 15) rest
  else continuation 3 (Z.land b 7) rest.

(** Where the first character outside ASCII is, and which it is. *)
Fixpoint first_non_ascii (position : nat) (s : string) : option (nat * Z) :=
  match s with
  | EmptyString => None
  | String a rest =>
      if (byte_of a <? 128)%Z then first_non_ascii (S position) rest
      else Some (position, code_point (byte_of a) rest)
  end.

(** How many characters outside ASCII follow each other at the start of
    [s]. *)
Fixpoint non_ascii_run (s : string) : nat :=
  match s with
  | EmptyString => O
  | String a rest =>
      if (byte_of a <? 128)%Z then O
      else if (byte_of a <? 192)%Z then non_ascii_run rest
      else S (non_ascii_run rest)
  end.

Fixpoint drop_ascii (s : string) : string :=
  match s with
  | EmptyString => EmptyString
  | String a rest => if (byte_of a <? 128)%Z then drop_ascii rest else s
  end.

Definition hex_digit (d : Z) : string :=
  String (ascii_of_nat (Z.to_nat (if (d <? 10)%Z then 48 + d else 87 + d))) "".

Fixpoint hex (width : nat) (n : Z) : string :=
  match width with
  | O => ""
  | S width' => hex width' (n / 16)%Z +:+ hex_digit (n mod 16)%Z
  end.

(** The character as [repr] shows it in the message of the error. *)
Definition escaped (c : Z) : string :=
  if (c <? 256)%Z then "\x" +:+ hex 2 c
  else if (c <? 65536)%Z then "\u" +:+ hex 4 c
  else "\U" +:+ hex 8 c.

(** [str(e)] of the [UnicodeEncodeError] of the codec [ascii] for a line,
    when the line has a character outside ASCII. *)
Definition ascii_codec_error (line : string) : option string :=
  match first_non_ascii 0 line with
  | None => None
  | Some (position, c) =>
      let n := non_ascii_run (drop_ascii line) in
      Some ("'ascii' codec can't encode character"
            +:+ (if (n <=? 1)%nat
                 then " '" +:+ escaped c +:+ "' in position "
                      +:+ pretty (Z.of_nat position)
                 else "s in position " +:+ pretty (Z.of_nat position) +:+ "-"
                      +:+ pretty (Z.of_nat (position + n - 1)))
            +:+ ": ordinal not in range(128)")
  end.

(** A standard output whose encoding is ASCII, as under
    [PYTHONIOENCODING=ascii] or the C locale of an older system. *)
Definition ascii_stdout {W} : Stdout W := {|
  refuses := fun line _ => ascii_codec_error line;
  flushes := fun _ => true
|}.


End Setup.

(** ** Facts about [code/python_tutorial.py] *)

Module TutorialFacts.

Import Tutorial.

(** *** Opening and closing a window *)

Lemma bound_self_instance s v c e :
  is_instance s v c ->
  exists l, v = VRef l /\ bound_self c v e s = (s, Ok l).
Proof.
  intros (l & o & -> & Hl & Hc). exists l. split; [reflexivity |].
  unfold bound_self. rewrite Hl, Hc.
  unfold subclass. rewrite bool_decide_eq_true_2 by reflexivity. reflexivity.
Qed.

Lemma open_window_instance s mgr :
  is_instance s mgr LoggingTape ->
  exists self, mgr = VRef self /\ open_window mgr s = (s, Ok (self, VNone)).
Proof.
  intros H. destruct (bound_self_instance _ _ _ TypeError H) as (l & -> & Hb).
  exists l. split; [reflexivity |].
  unfold open_window, bind. rewrite Hb. reflexivity.
Qed.

(** A window runs its body on the value [__enter__] returned and ends in
    the state and with the outcome of the body. *)
Lemma with_outcome s mgr (body : value -> Py unit) :
  is_instance s mgr LoggingTape ->
  with_ mgr body s =
    (fst (body VNone s),
     match snd (body VNone s) with
     | Ok _ => Ok VNone
     | Raise e => Raise e
     end).
Proof.
  intros H. destruct (open_window_instance _ _ H) as (self & -> & Ho).
  unfold with_, bind at 1. rewrite Ho.
  unfold bind, attempt. destruct (body VNone s) as [s1 [u | e]]; reflexivity.
Qed.

(** *** Construction *)

Lemma lookup_fresh (h : list obj) (o : obj) : (h ++ [o]) !! length h = Some o.
Proof. rewrite lookup_app_r by lia. rewrite Nat.sub_diag. reflexivity. Qed.

Lemma insert_fresh (h : list obj) (o o' : obj) :
  <[length h := o']> (h ++ [o]) = h ++ [o'].
Proof. rewrite insert_app_r_alt by lia. rewrite Nat.sub_diag. reflexivity. Qed.

Lemma instantiate_LoggingTape s :
  instantiate LoggingTape [] s = (with_new_tape s, Ok (VRef (length (heap s)))).
Proof.
  unfold instantiate, LoggingTape___init__, bind, alloc, setattr, ret; simpl.
  rewrite lookup_fresh, insert_fresh. reflexivity.
Qed.

Lemma new_tape_instance s :
  is_instance (with_new_tape s) (VRef (length (heap s))) LoggingTape.
Proof.
  exists (length (heap s)), (Obj LoggingTape (<["logs" := VEllipsis]> ∅)).
  repeat split. apply lookup_fresh.
Qed.

Lemma print_logs_new_tape s :
  LoggingTape_print_logs (length (heap s)) (with_new_tape s)
  = (with_new_tape s, Raise TypeError).
Proof.
  unfold LoggingTape_print_logs, bind, getattr; simpl.
  rewrite lookup_fresh; simpl. rewrite lookup_insert_eq. reflexivity.
Qed.

Lemma call_add_to_log s recv entry :
  is_instance s recv LoggingTape ->
  call_method recv "add_to_log" [entry] s = (s, Ok VNone).
Proof.
  intros H.
  destruct (bound_self_instance _ _ _ AttributeError H) as (l & -> & Hb).
  unfold call_method; simpl. unfold bind. rewrite Hb. reflexivity.
Qed.

Lemma call_print_logs s recv :
  is_instance s recv LoggingTape ->
  exists l, recv = VRef l /\
    call_method recv "print_logs" [] s = LoggingTape_print_logs l s.
Proof.
  intros H.
  destruct (bound_self_instance _ _ _ AttributeError H) as (l & -> & Hb).
  exists l. split; [reflexivity |].
  unfold call_method; simpl. unfold bind at 1. rewrite Hb. reflexivity.
Qed.

Lemma append_all_noop s recv entries k :
  is_instance s recv LoggingTape ->
  exec (append_all recv entries k) s = exec k s.
Proof.
  intros H. induction entries as [| e rest IH]; simpl; [reflexivity |].
  unfold bind. rewrite call_add_to_log by exact H. exact IH.
Qed.

End TutorialFacts.

(** ** The claims about [code/python_tutorial.py] *)

Module TutorialClaims.

Import Tutorial TutorialFacts.

(** C1.  Appending entries during one window and printing the logs after
    it does not print them.  The first logging test of the [__main__]
    block stops with [AttributeError] at [tape.add_to_log("Hi!")], because
    [as tape] bound [None], and prints nothing.  A client that appends any
    entries through its own reference to the recorder gets [TypeError]
    from [print_logs], again with nothing printed: [add_to_log] stores
    nothing and [logs] still holds [...]. *)
Theorem dump_after_window_prints_nothing :
  (exists s, exec hi_test initial = (s, Raise AttributeError) /\ stdout s = [])
  /\ (forall entries, exists s,
        exec (window_then_dump entries) initial = (s, Raise TypeError)
        /\ stdout s = []).
Proof.
  split.
  - eexists. split; vm_compute; reflexivity.
  - intros entries. exists (with_new_tape initial). split; [| reflexivity].
    unfold window_then_dump. cbn [exec]. unfold bind at 1.
    rewrite instantiate_LoggingTape. unfold bind at 1.
    pose proof (new_tape_instance initial) as Hi.
    rewrite with_outcome by exact Hi.
    rewrite append_all_noop by exact Hi.
    vm_compute. reflexivity.
Qed.

(** C7.  [print_logs] on a recorder that received no append prints no
    line, but it raises [TypeError]: [__init__] stored [...] in [logs], and
    [...] cannot be iterated. *)
Theorem print_logs_without_appends_raises (s : state) :
  instantiate LoggingTape [] s = (with_new_tape s, Ok (VRef (length (heap s))))
  /\ call_method (VRef (length (heap s))) "print_logs" [] (with_new_tape s)
     = (with_new_tape s, Raise TypeError)
  /\ stdout (with_new_tape s) = stdout s.
Proof.
  split; [apply instantiate_LoggingTape |]. split; [| reflexivity].
  destruct (call_print_logs _ _ (new_tape_instance s)) as (l & Hl & ->).
  injection Hl as <-. apply print_logs_new_tape.
Qed.

(** C3.  [__enter__] returns [None] and writes nothing: in every state it
    leaves [Logger.logging_tape] and the heap as they were.  From the
    freshly loaded module, after [LoggingTape()], opening the window binds
    [None], the slot still holds [None], and [logs] holds [...] rather
    than an empty sequence. *)
Theorem enter_publishes_nothing :
  (forall s self, LoggingTape___enter__ self s = (s, Ok VNone))
  /\ (let s := with_new_tape initial in
      open_window (VRef 0) s = (s, Ok (0%nat, VNone))
      /\ Logger_logging_tape s = VNone
      /\ getattr (VRef 0) "logs" s = (s, Ok VEllipsis)).
Proof.
  split; [reflexivity |]. repeat split; vm_compute; reflexivity.
Qed.

(** C6.  The car test of the [__main__] block, [car.travel(5)] inside a
    window, stops with [AttributeError] and prints nothing: the slot is
    still [None] inside the window.  Were the slot to hold the recorder,
    [travel(5)] would return without changing the recorder. *)
Theorem travel_in_window_logs_nothing :
  (exists s, exec car_test initial = (s, Raise AttributeError) /\ stdout s = [])
  /\ call_method (VRef 0) "travel" [VInt 5] car_and_tape_open
     = (car_and_tape_open, Ok VNone)
  /\ call_method (VRef 0) "travel" [VInt 5] car_and_tape
     = (car_and_tape, Raise AttributeError).
Proof.
  split; [eexists; split; vm_compute; reflexivity |].
  split; vm_compute; reflexivity.
Qed.

(** C2.  [__exit__] does nothing, so a window that ends leaves the slot as
    its body left it: it returns [None] and changes no state, whatever its
    arguments.  A window whose body stores the recorder in the slot ends
    with the recorder still in the slot, when the body ends normally and
    when it raises; the exception of the body does come out of the window
    unchanged.  A window on the recorder that the slot holds, with an empty
    body, ends with the recorder still in the slot. *)
Theorem exit_leaves_slot :
  (forall s self args, LoggingTape___exit__ self args s = (s, Ok VNone))
  /\ (Logger_logging_tape (fst (exec slot_written_in_window initial)) = VRef 0
      /\ snd (exec slot_written_in_window initial) = Ok tt)
  /\ (Logger_logging_tape (fst (exec slot_written_then_raise initial)) = VRef 0
      /\ snd (exec slot_written_then_raise initial) = Raise (UserError "boom"))
  /\ with_ (VRef 1) (fun _ => ret tt) car_and_tape_open
     = (car_and_tape_open, Ok VNone).
Proof.
  split; [reflexivity |].
  repeat split; vm_compute; reflexivity.
Qed.




(** C5, as stated, fails: a second window opened inside the first is not
    rejected.  The nested windows run to the end without an exception, and
    opening a window while the slot holds another recorder raises
    nothing. *)
Lemma double_open_not_rejected :
  snd (exec nested_windows initial) = Ok tt
  /\ (let s := {| heap := heap (with_new_tape (with_new_tape initial));
                  Logger_logging_tape := VRef 0;
                  stdout := [] |} in
      open_window (VRef 1) s = (s, Ok (1%nat, VNone))).
Proof. split; vm_compute; reflexivity. Qed.

(** C5, amended.  Opening a window on a recorder raises no error whatever
    the slot holds, so also while another window is open, and the body of
    the window is then run: the window is its body, run on the value that
    [__enter__] returned in the state that opening left, followed by the
    closing step. *)
Theorem second_open_proceeds (s : state) (mgr : value) :
  is_instance s mgr LoggingTape ->
  exists s1 self x,
    open_window mgr s = (s1, Ok (self, x))
    /\ forall body : value -> Py unit,
         with_ mgr body s
         = close_window self x (snd (body x s1)) (fst (body x s1)).
Proof.
  intros H. destruct (open_window_instance _ _ H) as (self & _ & Ho).
  exists s, self, VNone. split; [exact Ho |].
  intros body. unfold with_, bind at 1. rewrite Ho.
  unfold bind, attempt. destruct (body VNone s) as [s2 r]. reflexivity.
Qed.

Lemma second_open_proceeds_witness :
  is_raise (snd (open_window (VRef 1) two_tapes_first_open)) = false.
Proof.
  destruct (second_open_proceeds two_tapes_first_open (VRef 1))
    as (s1 & self & x & Ho & _).
  - eexists 1%nat, _. repeat split; vm_compute; reflexivity.
  - rewrite Ho. reflexivity.
Defined.

(** C10.  [Square.__init__] takes no argument beyond [self]: constructing
    a square with any argument raises [TypeError], and so does
    [Square(name, length)]; the instance left behind has neither a [name]
    nor a [length] attribute.  The local tests of the [__main__] block stop
    at their first statement with [TypeError], having printed nothing. *)
Theorem Square_rejects_arguments :
  (forall s a args, snd (instantiate Square (a :: args) s) = Raise TypeError)
  /\ (forall s, snd (instantiate Square [] s) = Ok (VRef (length (heap s))))
  /\ (forall s name length,
        let s' := fst (instantiate Square [name; length] s) in
        let square := VRef (List.length (heap s)) in
        snd (instantiate Square [name; length] s) = Raise TypeError
        /\ getattr square "name" s' = (s', Raise AttributeError)
        /\ getattr square "length" s' = (s', Raise AttributeError))
  /\ (exists s, exec local_tests initial = (s, Raise TypeError) /\ stdout s = []).
Proof.
  split; [reflexivity |]. split; [reflexivity |]. split.
  - intros s name len. cbv zeta. split; [reflexivity |].
    unfold instantiate, bind, alloc, getattr; simpl.
    rewrite lookup_fresh; simpl. rewrite !lookup_empty. split; reflexivity.
  - eexists. split; vm_compute; reflexivity.
Qed.

End TutorialClaims.

(** ** Facts about [env_setup/setup.py] *)

Module SetupFacts.

Import Setup Setup.Colors.

Section HostFacts.

Context {W : Type} (host : Host W).

Lemma bind_ok {A B} (c : M (st (W := W)) exception A) (k : A -> M st exception B) s s' a :
  c s = (s', Ok a) -> bind c k s = k a s'.
Proof. intros H. unfold bind. rewrite H. reflexivity. Qed.

Lemma bind_raise {A B} (c : M (st (W := W)) exception A) (k : A -> M st exception B) s s' e :
  c s = (s', Raise e) -> bind c k s = (s', Raise e).
Proof. intros H. unfold bind. rewrite H. reflexivity. Qed.

Lemma print_colored_run (message color : string) (w : W) out :
  print_colored message color (w, out)
  = ((w, out ++ [color +:+ message +:+ NC]), Ok tt).
Proof. reflexivity. Qed.

Lemma ask_run {A} (f : W -> A) (w : W) out :
  ask f (w, out) = ((w, out), Ok (f w)).
Proof. reflexivity. Qed.

(** **** [run_command] *)

Lemma subprocess_run_exit cmd check w w' code out :
  spawn W host cmd w = (w', Fine code) ->
  subprocess_run host cmd check (w, out)
  = ((w', out),
     if check && negb (code =? 0)%Z
     then Raise (CalledProcessError cmd code)
     else Ok (Completed cmd code)).
Proof.
  intros H. unfold subprocess_run, bind, act. cbn [fst snd]. rewrite H.
  cbn [lift_outcome ret]. destruct (check && negb (code =? 0)%Z); reflexivity.
Qed.

Lemma run_command_failure cmd w w' code out :
  spawn W host cmd w = (w', Fine code) ->
  code <> 0 ->
  run_command host cmd true (w, out)
  = ((w', out ++ [RED +:+ ("Command failed: " +:+ command_str W host cmd) +:+ NC;
                  RED +:+ ("Error: " +:+ error_str W host cmd code) +:+ NC]),
     Ok None).
Proof.
  intros H Hc. unfold run_command, catch.
  erewrite bind_raise; cycle 1.
  { rewrite (subprocess_run_exit _ _ _ _ _ _ H).
    apply Z.eqb_neq in Hc. rewrite Hc. reflexivity. }
  unfold bind. rewrite !print_colored_run. rewrite <- app_assoc. reflexivity.
Qed.

Lemma run_command_success cmd check w w' code out :
  spawn W host cmd w = (w', Fine code) ->
  check && negb (code =? 0)%Z = false ->
  run_command host cmd check (w, out) = ((w', out), Ok (Some (Completed cmd code))).
Proof.
  intros H Hc. unfold run_command, catch.
  erewrite bind_ok; cycle 1.
  { rewrite (subprocess_run_exit _ _ _ _ _ _ H). rewrite Hc. reflexivity. }
  reflexivity.
Qed.



(** **** The callers of [run_command] *)

Ltac step_ask := erewrite bind_ok by apply ask_run; cbv beta iota.









(** **** [check_system_dependencies] *)




(** **** The bounds of [check_python_version] *)

Lemma tuple_lt_spec (a b : Z * Z) :
  tuple_lt a b = true <-> fst a < fst b \/ (fst a = fst b /\ snd a < snd b).
Proof.
  unfold tuple_lt. rewrite orb_true_iff, andb_true_iff.
  rewrite !Z.ltb_lt, Z.eqb_eq. reflexivity.
Qed.

Lemma tuple_lt_false (a b : Z * Z) :
  tuple_lt a b = false <-> fst b < fst a \/ (fst a = fst b /\ snd b <= snd a).
Proof.
  rewrite <- not_true_iff_false, tuple_lt_spec. lia.
Qed.

(** The accepted versions are the two pairs between the bounds. *)
Lemma between_bounds (major minor : Z) :
  tuple_lt (major, minor) (3, 11) = false /\ tuple_lt (3, 12) (major, minor) = false
  <-> (major, minor) = (3, 11) \/ (major, minor) = (3, 12).
Proof.
  rewrite !tuple_lt_false. cbn [fst snd]. split.
  - intros [H1 H2].
    assert (major = 3 /\ (minor = 11 \/ minor = 12)) as [-> [-> | ->]] by lia;
      auto.
  - intros [H | H]; injection H as -> ->; lia.
Qed.

End HostFacts.

(** *** The script on its standard output *)

Section StdoutFacts.

Context {W : Type} (host : Host W) (tty : Stdout W).

Lemma print_colored_taken message color w out :
  refuses W tty (color +:+ message +:+ NC) w = None ->
  OnStdout.print_colored tty message color (w, out)
  = ((w, out ++ [color +:+ message +:+ NC]), Ok tt).
Proof.
  intros H. unfold OnStdout.print_colored, OnStdout.print_line.
  cbn [fst snd]. rewrite H. reflexivity.
Qed.

Lemma print_colored_refused message color text w out :
  refuses W tty (color +:+ message +:+ NC) w = Some text ->
  OnStdout.print_colored tty message color (w, out)
  = ((w, out), Raise (OtherException text)).
Proof.
  intros H. unfold OnStdout.print_colored, OnStdout.print_line.
  cbn [fst snd]. rewrite H. reflexivity.
Qed.

(** A line is refused, with the exception of [print], or printed. *)
Lemma print_colored_cases message color w out :
  (exists text,
      OnStdout.print_colored tty message color (w, out)
      = ((w, out), Raise (OtherException text)))
  \/ OnStdout.print_colored tty message color (w, out)
     = ((w, out ++ [color +:+ message +:+ NC]), Ok tt).
Proof.
  destruct (refuses W tty (color +:+ message +:+ NC) w) as [text |] eqn:H.
  - left. exists text. apply print_colored_refused, H.
  - right. apply print_colored_taken, H.
Qed.

(** Printing leaves the world as it is. *)
Lemma print_colored_world message color s :
  fst (fst (OnStdout.print_colored tty message color s)) = fst s.
Proof.
  unfold OnStdout.print_colored, OnStdout.print_line.
  destruct (refuses W tty (color +:+ message +:+ NC) (fst s)); reflexivity.
Qed.

Ltac step_ask := erewrite bind_ok by apply ask_run; cbv beta iota.

Ltac step_cases :=
  match goal with
  | |- context [bind (OnStdout.print_colored _ ?m ?c) ?k (?w, ?out)] =>
      let E := fresh "E" in
      destruct (print_colored_cases m c w out) as [[? E] | E];
      [ rewrite (bind_raise _ k _ _ _ E)
      | rewrite (bind_ok _ k _ _ _ E); cbv beta iota ]
  end.

Ltac step_taken H :=
  erewrite bind_ok by (apply print_colored_taken, H); cbv beta iota.

(** [check_python_version] leaves the world as it is; it returns whether
    the version is between the bounds, unless a line was refused. *)
Lemma check_python_version_cases w out :
  let '(major, minor, micro) := version_info W host w in
  exists out',
    (exists text,
        OnStdout.check_python_version host tty (w, out)
        = ((w, out'), Raise (OtherException text)))
    \/ OnStdout.check_python_version host tty (w, out)
       = ((w, out'),
          Ok (negb (tuple_lt (major, minor) (3, 11))
              && negb (tuple_lt (3, 12) (major, minor)))).
Proof.
  destruct (version_info W host w) as [[major minor] micro] eqn:Hv.
  unfold OnStdout.check_python_version. step_ask. rewrite Hv. cbv beta iota.
  destruct (tuple_lt (major, minor) (3, 11)) eqn:Hlow;
    [| destruct (tuple_lt (3, 12) (major, minor)) eqn:Hhigh];
    cbn [negb andb];
    repeat (step_cases; [eexists; left; eexists; reflexivity |]);
    eexists; right; reflexivity.
Qed.

(** On a standard output that takes every line, [check_python_version]
    runs as on any other. *)
Lemma check_python_version_taken w out :
  OnStdout.takes_all tty ->
  let '(major, minor, micro) := version_info W host w in
  exists lines,
    OnStdout.check_python_version host tty (w, out)
    = ((w, out ++ found_line (major, minor, micro) :: lines),
       Ok (negb (tuple_lt (major, minor) (3, 11))
           && negb (tuple_lt (3, 12) (major, minor))))
    /\ (tuple_lt (major, minor) (3, 11) || tuple_lt (3, 12) (major, minor) = true ->
        exists message rest,
          lines = (RED +:+ ("Error: " +:+ message) +:+ NC) :: rest).
Proof.
  intros Hall.
  destruct (version_info W host w) as [[major minor] micro] eqn:Hv.
  unfold OnStdout.check_python_version. step_ask. rewrite Hv. cbv beta iota.
  step_taken Hall.
  destruct (tuple_lt (major, minor) (3, 11)) eqn:Hlow;
    [| destruct (tuple_lt (3, 12) (major, minor)) eqn:Hhigh];
    cbn [negb andb orb];
    repeat step_taken Hall;
    cbv [ret]; rewrite <- ?app_assoc; cbn [app];
    eexists; (split; [reflexivity |]);
    intros H; try discriminate H; eexists _, _; reflexivity.
Qed.

(** When the line naming the version is refused, nothing is printed. *)
Lemma check_python_version_unnamed w out text :
  refuses W tty (found_line (version_info W host w)) w = Some text ->
  OnStdout.check_python_version host tty (w, out)
  = ((w, out), Raise (OtherException text)).
Proof.
  intros Hfound. unfold OnStdout.check_python_version. step_ask.
  destruct (version_info W host w) as [[major minor] micro].
  erewrite bind_raise by (apply print_colored_refused, Hfound). reflexivity.
Qed.

(** With an accepted version: the two lines and [True], or the exception
    of the refused check mark. *)
Lemma check_python_version_accepted w out :
  let version := version_info W host w in
  let v := (fst (fst version), snd (fst version)) in
  v = (3, 11) \/ v = (3, 12) ->
  refuses W tty (found_line version) w = None ->
  OnStdout.check_python_version host tty (w, out)
  = match refuses W tty (OnStdout.compatible_line v) w with
    | None =>
        ((w, out ++ [found_line version; OnStdout.compatible_line v]), Ok true)
    | Some text => ((w, out ++ [found_line version]), Raise (OtherException text))
    end.
Proof.
  cbv zeta.
  destruct (version_info W host w) as [[major minor] micro] eqn:Hv.
  cbn [fst snd]. intros Hacc Hfound.
  apply between_bounds in Hacc as [Hlow Hhigh].
  unfold OnStdout.check_python_version. step_ask. rewrite Hv. cbv beta iota.
  step_taken Hfound. rewrite Hlow, Hhigh.
  unfold OnStdout.compatible_line. cbn [fst snd].
  destruct (refuses W tty
              (GREEN +:+ ("✓ Python " +:+ pretty major +:+ "." +:+ pretty minor
                          +:+ " is compatible") +:+ NC) w) as [text |] eqn:Hmark.
  - erewrite bind_raise by (apply print_colored_refused, Hmark). reflexivity.
  - step_taken Hmark. unfold ret. rewrite <- app_assoc. reflexivity.
Qed.

(** With a version outside the bounds [main] ends by [sys.exit(1)], or
    earlier by the exception of a refused line. *)
Lemma main_rejected w out :
  let version := version_info W host w in
  let v := (fst (fst version), snd (fst version)) in
  tuple_lt v (3, 11) || tuple_lt (3, 12) v = true ->
  exists out' e,
    OnStdout.main host tty (w, out) = ((w, out'), Raise e)
    /\ (e = SystemExit 1 \/ exists text, e = OtherException text).
Proof.
  cbv zeta. intros Hbad. unfold OnStdout.main.
  step_cases; [eauto 6 |]. step_cases; [eauto 6 |].
  match goal with |- context [bind _ _ (w, ?o)] =>
    pose proof (check_python_version_cases w o) as Hrun end.
  destruct (version_info W host w) as [[major minor] micro].
  cbn [fst snd] in Hbad. destruct Hrun as (out' & [[text Hrun] | Hrun]).
  - erewrite bind_raise by exact Hrun. eauto 6.
  - erewrite bind_ok by exact Hrun. cbv beta iota.
    apply orb_true_iff in Hbad.
    replace (negb (tuple_lt (major, minor) (3, 11))
             && negb (tuple_lt (3, 12) (major, minor))) with false
      by (destruct Hbad as [-> | ->]; [| rewrite andb_comm]; reflexivity).
    cbn [negb].
    step_cases; [eauto 6 |]. step_cases; [eauto 6 |].
    unfold sys_exit, raise. eauto 6.
Qed.

(** The same on a standard output that takes every line. *)
Lemma main_rejected_taken w out :
  OnStdout.takes_all tty ->
  let version := version_info W host w in
  let v := (fst (fst version), snd (fst version)) in
  tuple_lt v (3, 11) || tuple_lt (3, 12) v = true ->
  snd (OnStdout.main host tty (w, out)) = Raise (SystemExit 1).
Proof.
  cbv zeta. intros Hall Hbad. unfold OnStdout.main.
  step_taken Hall. step_taken Hall.
  match goal with |- context [bind _ _ (w, ?o)] =>
    pose proof (check_python_version_taken w o Hall) as Hrun end.
  destruct (version_info W host w) as [[major minor] micro].
  cbn [fst snd] in Hbad. destruct Hrun as (lines & Hrun & _).
  erewrite bind_ok by exact Hrun. cbv beta iota.
  apply orb_true_iff in Hbad.
  replace (negb (tuple_lt (major, minor) (3, 11))
           && negb (tuple_lt (3, 12) (major, minor))) with false
    by (destruct Hbad as [-> | ->]; [| rewrite andb_comm]; reflexivity).
  cbn [negb].
  step_taken Hall. step_taken Hall.
  reflexivity.
Qed.

(** With an accepted version whose check mark is refused, [main] ends by
    the exception of a refused line. *)
Lemma main_refused w out text :
  let version := version_info W host w in
  let v := (fst (fst version), snd (fst version)) in
  v = (3, 11) \/ v = (3, 12) ->
  refuses W tty (OnStdout.compatible_line v) w = Some text ->
  exists out' text',
    OnStdout.main host tty (w, out) = ((w, out'), Raise (OtherException text')).
Proof.
  cbv zeta. intros Hacc Hmark. unfold OnStdout.main.
  step_cases; [eauto |]. step_cases; [eauto |].
  match goal with |- context [bind _ _ (w, ?o)] =>
    pose proof (check_python_version_accepted w o Hacc) as Hrun end.
  cbv zeta in Hrun. rewrite Hmark in Hrun.
  destruct (refuses W tty (found_line (version_info W host w)) w)
    as [text' |] eqn:Hfound.
  - erewrite bind_raise by (apply check_python_version_unnamed, Hfound). eauto.
  - erewrite bind_raise by (apply Hrun; reflexivity). eauto.
Qed.

(** The status of the process when [main] ends by an exception. *)
Lemma script_failed w s e :
  OnStdout.main host tty (w, []) = (s, Raise e) ->
  e = SystemExit 1 \/ e = KeyboardInterrupt \/ (exists text, e = OtherException text) ->
  snd (OnStdout.script host tty w) = if flushes W tty (fst s) then 1 else 120.
Proof.
  intros Hmain He. unfold OnStdout.script. rewrite Hmain.
  destruct He as [-> | [-> | [text ->]]]; cbn [fst snd];
    rewrite ?print_colored_world; reflexivity.
Qed.

(** The status of the process when [main] returns. *)
Lemma script_returned w s u :
  OnStdout.main host tty (w, []) = (s, Ok u) ->
  snd (OnStdout.script host tty w) = if flushes W tty (fst s) then 0 else 120.
Proof. intros Hmain. unfold OnStdout.script. rewrite Hmain. reflexivity. Qed.

End StdoutFacts.

End SetupFacts.

(** ** The claims about [env_setup/setup.py] *)

Module SetupClaims.

Import Setup Setup.Colors SetupFacts.

(** C8.  [check_python_version] returns [True] only when the pair
    (major, minor) of the interpreter is (3, 11) or (3, 12), but not
    whenever it is.  With such a version, once the line naming the version
    is printed, the function prints the line with the check mark and
    returns [True] when the standard output takes that line; when the
    standard output refuses it, the function raises the exception of
    [print] and returns nothing, and the script ends with status 1 (120
    when the standard output cannot be flushed).  Every other version is
    below (3, 11) or above (3, 12); with it the script ends with status 1
    (or 120), and on a standard output that takes every line the function
    prints an error line after the line naming the version and returns
    [False], and [main] raises [SystemExit(1)]. *)
Theorem check_python_version_true_needs_check_mark {W} (host : Host W)
    (tty : Stdout W) (w : W) (out : list string) :
  let version := version_info W host w in
  let v := (fst (fst version), snd (fst version)) in
  let checked := OnStdout.check_python_version host tty (w, out) in
  let status := snd (OnStdout.script host tty w) in
  (snd checked = Ok true -> v = (3, 11) \/ v = (3, 12))
  /\ (v = (3, 11) \/ v = (3, 12) ->
      refuses W tty (found_line version) w = None ->
      match refuses W tty (OnStdout.compatible_line v) w with
      | None =>
          checked
          = ((w, out ++ [found_line version; OnStdout.compatible_line v]), Ok true)
      | Some text =>
          checked = ((w, out ++ [found_line version]), Raise (OtherException text))
          /\ status = (if flushes W tty w then 1 else 120)
      end)
  /\ (v <> (3, 11) -> v <> (3, 12) ->
      (tuple_lt v (3, 11) = true \/ tuple_lt (3, 12) v = true)
      /\ status = (if flushes W tty w then 1 else 120)
      /\ (OnStdout.takes_all tty ->
          snd checked = Ok false
          /\ (exists message rest,
                snd (fst checked)
                = out ++ found_line version
                         :: (RED +:+ ("Error: " +:+ message) +:+ NC) :: rest)
          /\ snd (OnStdout.main host tty (w, out)) = Raise (SystemExit 1))).
Proof.
  cbv zeta.
  pose proof (check_python_version_cases host tty w out) as Hcases.
  pose proof (check_python_version_accepted host tty w out) as Hacc.
  pose proof (check_python_version_taken host tty w out) as Htaken.
  pose proof (main_rejected host tty w []) as Hmain.
  pose proof (main_rejected_taken host tty w out) as Hexit.
  pose proof (main_refused host tty w []) as Hrefused.
  cbv zeta in Hacc, Hmain, Hexit, Hrefused.
  destruct (version_info W host w) as [[major minor] micro].
  cbn [fst snd] in *.
  pose proof (between_bounds major minor) as Hb.
  split; [| split].
  - intros Htrue. apply Hb.
    destruct Hcases as (out' & [[text Hrun] | Hrun]);
      rewrite Hrun in Htrue; cbn [snd] in Htrue; [discriminate Htrue |].
    injection Htrue as Htrue. apply andb_true_iff in Htrue as [H1 H2].
    apply negb_true_iff in H1, H2. auto.
  - intros Hv Hfound. specialize (Hacc Hv Hfound).
    destruct (refuses W tty (OnStdout.compatible_line (major, minor)) w)
      as [text |] eqn:Hmark; [| exact Hacc].
    split; [exact Hacc |].
    destruct (Hrefused text Hv eq_refl) as (out' & text' & Hrun).
    rewrite (script_failed host tty w _ _ Hrun) by eauto. reflexivity.
  - intros Hne1 Hne2.
    assert (Hbad : tuple_lt (major, minor) (3, 11)
                   || tuple_lt (3, 12) (major, minor) = true).
    { destruct (tuple_lt (major, minor) (3, 11)) eqn:H1; [reflexivity |].
      destruct (tuple_lt (3, 12) (major, minor)) eqn:H2; [reflexivity |].
      exfalso. destruct (proj1 Hb (conj eq_refl eq_refl)); contradiction. }
    split; [apply orb_true_iff, Hbad |].
    split.
    { destruct (Hmain Hbad) as (out' & e & Hrun & He).
      rewrite (script_failed host tty w _ _ Hrun) by tauto. reflexivity. }
    intros Hall. destruct (Htaken Hall) as (lines & Hrun & Herr).
    rewrite Hrun. cbn [fst snd].
    split.
    { apply orb_true_iff in Hbad. f_equal.
      destruct Hbad as [-> | ->]; [| rewrite andb_comm]; reflexivity. }
    split.
    { destruct (Herr Hbad) as (message & rest & ->). eauto. }
    exact (Hexit Hall Hbad).
Qed.

Lemma check_python_version_true_needs_check_mark_witness :
  (OnStdout.check_python_version (linux_host (3, 11, 0) 0) ascii_stdout (tt, [])
   = ((tt, [found_line (3, 11, 0)]),
      Raise (OtherException
               "'ascii' codec can't encode character '\u2713' in position 7: ordinal not in range(128)"))
   /\ snd (OnStdout.script (linux_host (3, 11, 0) 0) ascii_stdout tt) = 1)
  /\ (snd (OnStdout.check_python_version (linux_host (3, 13, 0) 0) utf8_stdout
             (tt, [])) = Ok false
      /\ snd (OnStdout.script (linux_host (3, 13, 0) 0) utf8_stdout tt) = 1).
Proof.
  split.
  - exact (proj1 (proj2 (check_python_version_true_needs_check_mark
                           (linux_host (3, 11, 0) 0) ascii_stdout tt []))
             (or_introl eq_refl) eq_refl).
  - destruct (proj2 (proj2 (check_python_version_true_needs_check_mark
                              (linux_host (3, 13, 0) 0) utf8_stdout tt [])))
      as (_ & Hstatus & Htaken).
    + vm_compute. discriminate.
    + vm_compute. discriminate.
    + split; [apply Htaken; intros line w; reflexivity | exact Hstatus].
Defined.




End SetupClaims.

(** ** Further facts about [code/python_tutorial.py] *)

Module TutorialExtras.

Import Tutorial TutorialFacts.

(** *** Preservation of a state predicate *)

Section Preservation.

Context (J : state -> Prop).

Lemma preserves_ret {A} (a : A) : preserves J (ret a).
Proof. intros s H; exact H. Qed.

Lemma preserves_raise {A} (e : exn) : preserves J (raise (A := A) e).
Proof. intros s H; exact H. Qed.

Lemma preserves_bind {A B} (c : Py A) (k : A -> Py B) :
  preserves J c -> (forall a, preserves J (k a)) -> preserves J (bind c k).
Proof.
  intros Hc Hk s H. unfold bind. specialize (Hc s H).
  destruct (c s) as [s1 [a | e]]; cbn [fst] in *; [apply Hk |]; exact Hc.
Qed.

Lemma preserves_attempt {A} (c : Py A) : preserves J c -> preserves J (attempt c).
Proof.
  intros Hc s H. unfold attempt. specialize (Hc s H).
  destruct (c s) as [s1 r]; exact Hc.
Qed.

(** A computation that leaves the state as it is preserves everything. *)
Lemma preserves_same {A} (c : Py A) :
  (forall s, fst (c s) = s) -> preserves J c.
Proof. intros Hc s H. rewrite Hc. exact H. Qed.

Lemma preserves_for_each {A} (xs : list A) (f : A -> Py unit) :
  (forall x, preserves J (f x)) -> preserves J (for_each xs f).
Proof.
  intros Hf. induction xs as [| x xs IH]; cbn [for_each].
  - apply preserves_ret.
  - apply preserves_bind; auto.
Qed.

End Preservation.

Lemma getattr_same v name s : fst (getattr v name s) = s.
Proof.
  unfold getattr. destruct v; try reflexivity.
  destruct (heap s !! l) as [o |]; try reflexivity.
  destruct (dict o !! name); try reflexivity.
  destruct (class_attr s (cls o) name); reflexivity.
Qed.

Lemma bound_self_same c v e s : fst (bound_self c v e s) = s.
Proof.
  unfold bound_self. destruct v; try reflexivity.
  destruct (heap s !! l) as [o |]; try reflexivity.
  destruct (subclass (cls o) c); reflexivity.
Qed.

Lemma py_iter_same v s : fst (py_iter v s) = s.
Proof. destruct v; reflexivity. Qed.

Create HintDb pres.

#[local] Hint Resolve preserves_ret preserves_raise preserves_attempt
  preserves_for_each : pres.
#[local] Hint Extern 1 (preserves _ (getattr _ _)) =>
  apply preserves_same, getattr_same : pres.
#[local] Hint Extern 1 (preserves _ (bound_self _ _ _)) =>
  apply preserves_same, bound_self_same : pres.
#[local] Hint Extern 1 (preserves _ (py_iter _)) =>
  apply preserves_same, py_iter_same : pres.
#[local] Hint Extern 1 (preserves _ get) =>
  apply preserves_same; reflexivity : pres.

Ltac pres_step :=
  repeat first
    [ match goal with
      | |- preserves _ (bind _ _) => apply preserves_bind; [| intros ?]
      end
    | progress auto with pres ].

Lemma preserves_travel J self distance : preserves J (Car_travel self distance).
Proof.
  unfold Car_travel, LoggingTape_add_to_log. pres_step.
  match goal with |- context [match ?r with _ => _ end] => destruct r end;
    pres_step.
Qed.

Lemma print_same_objects (s : state) v :
  preserves (fun t =>
    heap t = heap s /\ Logger_logging_tape t = Logger_logging_tape s
    /\ exists lines, stdout t = stdout s ++ lines) (print v).
Proof.
  intros t (Hh & Hs & lines & Ho). unfold print.
  destruct (py_str (heap t) v) as [line | e]; cbn [fst heap Logger_logging_tape stdout].
  - repeat split; try assumption.
    exists (lines ++ [line]). rewrite Ho, app_assoc. reflexivity.
  - repeat split; try assumption. eauto.
Qed.

(** The methods that the classes define beside the constructors. *)
Lemma preserves_defined_method J recv name args :
  In name ["__enter__"; "__exit__"; "add_to_log"; "print_logs"; "travel"] ->
  (forall self, preserves J (LoggingTape_print_logs self)) ->
  preserves J (call_method recv name args).
Proof.
  intros Hin Hprint.
  repeat (destruct Hin as [<- | Hin]); try contradiction;
    unfold call_method; cbn [String.eqb Ascii.eqb Bool.eqb];
    unfold LoggingTape_add_to_log, LoggingTape___enter__, LoggingTape___exit__;
    pres_step;
    try (destruct args as [| ? [| ? ?]]; pres_step);
    solve [auto using preserves_travel].
Qed.

(** *** The properties *)

(** X1.  None of the methods that the classes define beside the
    constructors ([__enter__], [__exit__], [add_to_log], [print_logs],
    [travel]) changes an instance or the slot: after such a call, for any
    receiver and arguments and in any state, the heap and
    [Logger.logging_tape] are what they were, and the output has at most
    grown.  (The constructors and the methods of [object] that set and
    delete attributes do change an instance.) *)
Theorem methods_change_no_object (s : state) (recv : value) (name : string)
    (args : list value) :
  In name ["__enter__"; "__exit__"; "add_to_log"; "print_logs"; "travel"] ->
  let s' := fst (call_method recv name args s) in
  heap s' = heap s
  /\ Logger_logging_tape s' = Logger_logging_tape s
  /\ exists lines, stdout s' = stdout s ++ lines.
Proof.
  intros Hin.
  apply (preserves_defined_method
           (fun t => heap t = heap s
                     /\ Logger_logging_tape t = Logger_logging_tape s
                     /\ exists lines, stdout t = stdout s ++ lines)
           recv name args Hin).
  - intros self. unfold LoggingTape_print_logs. pres_step.
    apply preserves_for_each. intros x. apply print_same_objects.
  - repeat split. exists []. rewrite app_nil_r. reflexivity.
Qed.

Lemma methods_change_no_object_witness :
  heap (fst (call_method (VRef 1) "add_to_log" [VStr "Hi!"] car_and_tape_open))
  = heap car_and_tape_open.
Proof.
  refine (proj1 (methods_change_no_object car_and_tape_open (VRef 1)
                   "add_to_log" [VStr "Hi!"] _)).
  right. right. left. reflexivity.
Defined.

(** X4.  A [Multiplier] can only be called without arguments, and then it
    returns [None]: after [m = Multiplier()] in any state, [m()] returns
    [None] and [m(a, ...)] raises [TypeError], both leaving the state as it
    is; the product is never computed. *)
Theorem Multiplier_takes_no_argument (s : state) (args : list value) :
  let m := VRef (length (heap s)) in
  let s1 := fst (instantiate Multiplier [] s) in
  snd (instantiate Multiplier [] s) = Ok m
  /\ call m args s1
     = (s1, match args with [] => Ok VNone | _ :: _ => Raise TypeError end).
Proof.
  cbv zeta. split; [reflexivity |].
  change (fst (instantiate Multiplier [] s))
    with {| heap := heap s ++ [Obj Multiplier ∅];
            Logger_logging_tape := Logger_logging_tape s;
            stdout := stdout s |}.
  unfold call, bind, bound_self. cbn [heap]. rewrite lookup_fresh.
  cbn. destruct args; reflexivity.
Qed.



End TutorialExtras.

(** ** Further facts about [env_setup/setup.py] *)

Module SetupExtras.

Import Setup Setup.Colors SetupFacts.

(** *** What a step can raise *)

Section Outcomes.

Context {W : Type} (host : Host W).

Lemma outcome_ret {A} R (P : A -> Prop) (a : A) :
  P a -> outcome_in (W := W) R P (ret a).
Proof. intros H s. exact H. Qed.

Lemma outcome_raise {A} (R : exception -> Prop) (P : A -> Prop) e :
  R e -> outcome_in (W := W) R P (raise e).
Proof. intros H s. exact H. Qed.

Lemma outcome_bind {A B} R (P : B -> Prop)
    (c : M (st (W := W)) exception A) (k : A -> M st exception B) :
  outcome_in R (fun _ => True) c ->
  (forall a, outcome_in R P (k a)) ->
  outcome_in R P (bind c k).
Proof.
  intros Hc Hk s. unfold bind. specialize (Hc s).
  destruct (c s) as [s1 [a | e]]; cbn [snd] in *; [apply Hk | exact Hc].
Qed.

Lemma outcome_ask {A} R (f : W -> A) : outcome_in R (fun _ => True) (ask f).
Proof. intros s. exact I. Qed.

Lemma outcome_print_colored R message color :
  outcome_in (W := W) R (fun _ => True) (print_colored message color).
Proof. intros s. exact I. Qed.

Lemma outcome_for_each {A} R (xs : list A) (f : A -> M (st (W := W)) exception unit) :
  (forall x, outcome_in R (fun _ => True) (f x)) ->
  outcome_in R (fun _ => True) (for_each xs f).
Proof.
  intros Hf. induction xs as [| x xs IH]; cbn [for_each].
  - apply outcome_ret. exact I.
  - apply outcome_bind; auto.
Qed.

(** Whatever the host does, an operation of the host raises a host
    failure or returns. *)
Lemma outcome_act {A} (f : W -> W * outcome A) :
  outcome_in host_failure (fun _ => True) (act f).
Proof.
  intros [w out]. unfold act. cbn [fst snd].
  destruct (f w) as [w' [a | | msg]]; cbn; unfold host_failure; eauto.
Qed.

Lemma outcome_widen {A} (R R' : exception -> Prop) (P : A -> Prop)
    (c : M (st (W := W)) exception A) :
  (forall e, R e -> R' e) -> outcome_in R P c -> outcome_in R' P c.
Proof.
  intros HR Hc s. specialize (Hc s). destruct (snd (c s)); auto.
Qed.

Create HintDb outcome.

#[local] Hint Resolve outcome_ask outcome_print_colored outcome_for_each : outcome.
#[local] Hint Extern 1 (outcome_in _ _ (ret _)) =>
  apply outcome_ret; exact I : outcome.

Ltac out_step :=
  repeat first
    [ match goal with
      | |- outcome_in _ _ (bind _ _) => apply outcome_bind; [| intros ?]
      | |- outcome_in _ _ (if ?b then _ else _) => destruct b
      | |- outcome_in _ _ (match ?x with _ => _ end) => destruct x
      end
    | progress auto with outcome ].

Section Steps.

(** [R] holds of what the host operations raise, and of [SystemExit(1)]
    where [main] is concerned. *)
Context (R : exception -> Prop).
Context (Hspawn : forall cmd, outcome_in R (fun _ => True) (act (spawn W host cmd))).
Context (Hinput : forall prompt, outcome_in R (fun _ => True) (act (input W host prompt))).
Context (Hrmtree : forall p, outcome_in R (fun _ => True) (act (rmtree W host p))).
Context (Hexit : R (SystemExit 1)).

(** [run_command] lets through what the host raised, and nothing else:
    the [CalledProcessError] of a checked command ends as [None]. *)
Lemma outcome_run_command cmd check :
  outcome_in R (fun _ => True) (run_command host cmd check).
Proof.
  intros s. unfold run_command, catch, subprocess_run, bind.
  specialize (Hspawn cmd s).
  destruct (act (spawn W host cmd) s) as [s1 [code | e]]; cbn [snd] in Hspawn.
  - destruct (check && negb (code =? 0)%Z); exact I.
  - destruct e; try exact Hspawn. exact I.
Qed.

#[local] Hint Resolve outcome_run_command : outcome.

Lemma outcome_check_python_version :
  outcome_in R (fun _ => True) (check_python_version host).
Proof. unfold check_python_version. out_step. Qed.

Lemma outcome_get_os_info : outcome_in R (fun _ => True) (get_os_info host).
Proof. unfold get_os_info. out_step. Qed.

Lemma outcome_brew_dep dep : outcome_in R (fun _ => True) (brew_dep host dep).
Proof. unfold brew_dep. out_step. Qed.

#[local] Hint Resolve outcome_brew_dep : outcome.

Lemma outcome_check_system_dependencies os_type :
  outcome_in R (fun _ => True) (check_system_dependencies host os_type).
Proof. unfold check_system_dependencies. out_step. Qed.

Lemma outcome_create_virtual_environment :
  outcome_in R (fun _ => True) (create_virtual_environment host).
Proof.
  unfold create_virtual_environment. cbv zeta. unfold INSTALL_IN_PARENT.
  out_step.
Qed.

Lemma outcome_install_requirements env_path os_type :
  outcome_in R (fun _ => True) (install_requirements host env_path os_type).
Proof. unfold install_requirements. out_step. Qed.

Lemma outcome_setup_jupyter_kernel env_path os_type :
  outcome_in R (fun _ => True) (setup_jupyter_kernel host env_path os_type).
Proof. unfold setup_jupyter_kernel. cbv zeta. out_step. Qed.

Lemma outcome_verify_imports python_exe packages :
  outcome_in R (fun _ => True) (verify_imports host python_exe packages).
Proof.
  induction packages as [| package rest IH]; cbn [verify_imports]; out_step.
Qed.

Lemma outcome_verify_installation env_path os_type :
  outcome_in R (fun _ => True) (verify_installation host env_path os_type).
Proof.
  unfold verify_installation. cbv zeta. out_step. apply outcome_verify_imports.
Qed.

Lemma outcome_print_next_steps env_path os_type :
  outcome_in R (fun _ => True) (print_next_steps host env_path os_type).
Proof. unfold print_next_steps. cbv zeta. unfold INSTALL_IN_PARENT. out_step. Qed.

Lemma outcome_main : outcome_in R (fun _ => True) (main host).
Proof.
  unfold main, sys_exit.
  pose proof outcome_check_python_version.
  pose proof outcome_get_os_info.
  pose proof outcome_check_system_dependencies.
  pose proof outcome_create_virtual_environment.
  pose proof outcome_install_requirements.
  pose proof outcome_setup_jupyter_kernel.
  pose proof outcome_verify_installation.
  pose proof outcome_print_next_steps.
  out_step; try (apply outcome_raise; exact Hexit).
Qed.

End Steps.

End Outcomes.

Ltac run_print := erewrite bind_ok by apply print_colored_run; cbv beta iota.
Ltac run_with E := erewrite bind_ok by exact E; cbv beta iota.

(** *** [run_command] *)


(** X14.  [CalledProcessError] never leaves a function of the script, and
    only [main] exits.  Each step, run anywhere on any host, either returns
    or raises what the host raised (an interrupt, or the failure of an
    operation of the host); [main] either returns, raises such a failure,
    or raises [SystemExit(1)]. *)
Theorem only_host_failures_escape {W} (host : Host W) :
  (forall cmd check,
      outcome_in host_failure (fun _ => True) (run_command host cmd check))
  /\ outcome_in host_failure (fun _ => True) (check_python_version host)
  /\ outcome_in host_failure (fun _ => True) (get_os_info host)
  /\ (forall os_type,
        outcome_in host_failure (fun _ => True)
          (check_system_dependencies host os_type))
  /\ outcome_in host_failure (fun _ => True) (create_virtual_environment host)
  /\ (forall env_path os_type,
        outcome_in host_failure (fun _ => True)
          (install_requirements host env_path os_type))
  /\ (forall env_path os_type,
        outcome_in host_failure (fun _ => True)
          (setup_jupyter_kernel host env_path os_type))
  /\ (forall env_path os_type,
        outcome_in host_failure (fun _ => True)
          (verify_installation host env_path os_type))
  /\ (forall env_path os_type,
        outcome_in host_failure (fun _ => True)
          (print_next_steps host env_path os_type))
  /\ outcome_in failure_or_exit_1 (fun _ => True) (main host).
Proof.
  pose proof (fun cmd => outcome_act (spawn W host cmd)) as Hspawn.
  pose proof (fun prompt => outcome_act (input W host prompt)) as Hinput.
  pose proof (fun p => outcome_act (rmtree W host p)) as Hrmtree.
  repeat match goal with |- _ /\ _ => split end.
  - intros cmd check. apply outcome_run_command, Hspawn.
  - apply outcome_check_python_version.
  - apply outcome_get_os_info.
  - intros os_type. apply outcome_check_system_dependencies, Hspawn.
  - apply outcome_create_virtual_environment; assumption.
  - intros env_path os_type. apply outcome_install_requirements, Hspawn.
  - intros env_path os_type. apply outcome_setup_jupyter_kernel, Hspawn.
  - intros env_path os_type. apply outcome_verify_installation, Hspawn.
  - intros env_path os_type. apply outcome_print_next_steps.
  - apply outcome_main.
    + intros cmd. eapply outcome_widen; [| apply Hspawn]. intros e; left; assumption.
    + intros q. eapply outcome_widen; [| apply Hinput]. intros e; left; assumption.
    + intros q. eapply outcome_widen; [| apply Hrmtree]. intros e; left; assumption.
    + right. reflexivity.
Qed.

(** *** The steps of the script *)






Lemma outcome_any {W A} (c : M (st (W := W)) exception A) :
  outcome_in (fun _ => True) (fun _ => True) c.
Proof. intros s. destruct (snd (c s)); exact I. Qed.

Lemma outcome_bind_value {W A B} R (Q : A -> Prop) (P : B -> Prop)
    (c : M (st (W := W)) exception A) (k : A -> M st exception B) :
  outcome_in R Q c ->
  (forall a, Q a -> outcome_in R P (k a)) ->
  outcome_in R P (bind c k).
Proof.
  intros Hc Hk s. unfold bind. specialize (Hc s).
  destruct (c s) as [s1 [a | e]]; cbn [snd] in *; [apply Hk |]; exact Hc.
Qed.

(** X10.  The virtual environment is always the directory [csci1470] of the
    parent directory: whenever [create_virtual_environment] returns, on any
    host and whatever the user answers, it returns that path or [None]. *)
Theorem environment_is_in_parent {W} (host : Host W) (s : st) :
  match snd (create_virtual_environment host s) with
  | Ok result => result = None \/ result = Some [".."; ENV_NAME]
  | Raise _ => True
  end.
Proof.
  revert s.
  change (outcome_in (fun _ => True)
            (fun result => result = None \/ result = Some [".."; ENV_NAME])
            (create_virtual_environment host)).
  unfold create_virtual_environment. cbv zeta. unfold INSTALL_IN_PARENT. cbv iota.
  apply outcome_bind_value with (Q := fun env_path => env_path = [".."; ENV_NAME]).
  - apply outcome_bind; [apply outcome_any | intros resolved].
    apply outcome_bind; [apply outcome_any | intros _].
    apply outcome_ret. reflexivity.
  - intros env_path ->.
    repeat first
      [ match goal with
        | |- outcome_in _ _ (bind _ _) =>
            apply outcome_bind; [apply outcome_any | intros ?]
        | |- outcome_in _ _ (if ?b then _ else _) => destruct b
        | |- outcome_in _ _ (match ?x with _ => _ end) => destruct x
        | |- outcome_in _ _ (ret _) => apply outcome_ret; auto
        end ].
Qed.



(** *** [verify_installation] *)

Lemma verify_imports_all_ok {W} (host : Host W) python_exe packages :
  (forall package,
      In package packages ->
      always_succeeds host
        (Argv [path_str W host python_exe; "-c";
               "import " +:+ package +:+ "; print(f'" +:+ package +:+ " OK')"])) ->
  forall w out, exists w',
    verify_imports host python_exe packages (w, out)
    = ((w', out ++ ok_lines packages), Ok true).
Proof.
  induction packages as [| p rest IH]; intros Hok w out; cbn [verify_imports].
  - exists w. rewrite app_nil_r. reflexivity.
  - destruct (Hok p (or_introl eq_refl) w) as (w1 & Hs).
    pose proof (run_command_success host _ true w w1 0 out Hs eq_refl) as E.
    run_with E. cbn [returncode Z.eqb]. run_print.
    destruct (IH (fun q Hq => Hok q (or_intror Hq)) w1
                 (out ++ [GREEN +:+ ("✓ " +:+ p) +:+ NC])) as (w' & ->).
    exists w'. cbn [ok_lines map]. rewrite <- app_assoc. reflexivity.
Qed.

Lemma verify_imports_first_failure {W} (host : Host W) python_exe
    before package after :
  (forall p,
      In p before ->
      always_succeeds host
        (Argv [path_str W host python_exe; "-c";
               "import " +:+ p +:+ "; print(f'" +:+ p +:+ " OK')"])) ->
  always_fails host
    (Argv [path_str W host python_exe; "-c";
           "import " +:+ package +:+ "; print(f'" +:+ package +:+ " OK')"]) ->
  forall w out, exists w' code,
    verify_imports host python_exe (before ++ package :: after) (w, out)
    = ((w', out ++ ok_lines before
              ++ failure_lines host
                   (Argv [path_str W host python_exe; "-c";
                          "import " +:+ package +:+ "; print(f'" +:+ package
                          +:+ " OK')"]) code
              ++ [RED +:+ ("✗ " +:+ package +:+ " - Import failed") +:+ NC]),
       Ok false).
Proof.
  intros Hok Hf. induction before as [| p rest IH]; intros w out;
    cbn [app verify_imports].
  - destruct (Hf w) as (w1 & code & Hs & Hz).
    pose proof (run_command_failure host _ w w1 code out Hs Hz) as E.
    run_with E. run_print. exists w1, code.
    unfold failure_lines. cbn [ok_lines map app]. rewrite <- !app_assoc.
    reflexivity.
  - destruct (Hok p (or_introl eq_refl) w) as (w1 & Hs).
    pose proof (run_command_success host _ true w w1 0 out Hs eq_refl) as E.
    run_with E. cbn [returncode Z.eqb]. run_print.
    destruct (IH (fun q Hq => Hok q (or_intror Hq)) w1
                 (out ++ [GREEN +:+ ("✓ " +:+ p) +:+ NC])) as (w' & code & ->).
    exists w', code. cbn [ok_lines map]. rewrite <- !app_assoc. reflexivity.
Qed.

(** *** The script on its standard output *)

Section OnStdoutOutcomes.

Context {W : Type} (host : Host W) (tty : Stdout W).

(** [R] holds of what the host operations raise and of what [print]
    raises. *)
Context (R : exception -> Prop).
Context (Hspawn : forall cmd, outcome_in R (fun _ => True) (act (spawn W host cmd))).
Context (Hinput : forall prompt, outcome_in R (fun _ => True) (act (input W host prompt))).
Context (Hrmtree : forall p, outcome_in R (fun _ => True) (act (rmtree W host p))).
Context (Hprint : forall text, R (OtherException text)).

Lemma on_stdout_print_colored message color :
  outcome_in R (fun _ => True) (OnStdout.print_colored tty message color).
Proof.
  intros s. unfold OnStdout.print_colored, OnStdout.print_line.
  destruct (refuses W tty (color +:+ message +:+ NC) (fst s)); cbn [snd];
    [apply Hprint | exact I].
Qed.

Lemma on_stdout_run_command cmd check :
  outcome_in R (fun _ => True) (OnStdout.run_command host tty cmd check).
Proof.
  intros s. unfold OnStdout.run_command, catch, subprocess_run.
  pose proof (Hspawn cmd s) as Hs. unfold bind at 1 2.
  destruct (act (spawn W host cmd) s) as [s1 [code | e]]; cbn [snd] in Hs.
  - destruct (check && negb (code =? 0)%Z); cbn [raise ret]; [| exact I].
    apply outcome_bind; [apply on_stdout_print_colored | intros _].
    apply outcome_bind; [apply on_stdout_print_colored | intros _].
    apply outcome_ret. exact I.
  - destruct e; try exact Hs.
    apply outcome_bind; [apply on_stdout_print_colored | intros _].
    apply outcome_bind; [apply on_stdout_print_colored | intros _].
    apply outcome_ret. exact I.
Qed.

Create HintDb on_stdout.

#[local] Hint Resolve outcome_ask on_stdout_print_colored outcome_for_each
  on_stdout_run_command : on_stdout.
#[local] Hint Extern 1 (outcome_in _ _ (ret _)) =>
  apply outcome_ret; exact I : on_stdout.

Ltac on_stdout_step :=
  repeat first
    [ match goal with
      | |- outcome_in _ _ (bind _ _) => apply outcome_bind; [| intros ?]
      | |- outcome_in _ _ (if ?b then _ else _) => destruct b
      | |- outcome_in _ _ (match ?x with _ => _ end) => destruct x
      end
    | progress auto with on_stdout ].



Lemma on_stdout_brew_dep dep :
  outcome_in R (fun _ => True) (OnStdout.brew_dep host tty dep).
Proof. unfold OnStdout.brew_dep. on_stdout_step. Qed.

#[local] Hint Resolve on_stdout_brew_dep : on_stdout.




Lemma on_stdout_setup_jupyter_kernel env_path os_type :
  outcome_in R (fun _ => True)
    (OnStdout.setup_jupyter_kernel host tty env_path os_type).
Proof. unfold OnStdout.setup_jupyter_kernel. cbv zeta. on_stdout_step. Qed.

Lemma on_stdout_verify_imports python_exe packages :
  outcome_in R (fun _ => True) (OnStdout.verify_imports host tty python_exe packages).
Proof.
  induction packages as [| package rest IH]; cbn [OnStdout.verify_imports];
    on_stdout_step.
Qed.

Lemma on_stdout_verify_installation env_path os_type :
  outcome_in R (fun _ => True)
    (OnStdout.verify_installation host tty env_path os_type).
Proof.
  unfold OnStdout.verify_installation. cbv zeta. on_stdout_step.
  apply on_stdout_verify_imports.
Qed.

Lemma on_stdout_print_next_steps env_path os_type :
  outcome_in R (fun _ => True) (OnStdout.print_next_steps host tty env_path os_type).
Proof.
  unfold OnStdout.print_next_steps. cbv zeta. unfold INSTALL_IN_PARENT.
  on_stdout_step.
Qed.

(** What follows the installation of the packages in [main]. *)
Lemma on_stdout_after_install env_path os_type :
  outcome_in R (fun _ => True)
    (OnStdout.setup_jupyter_kernel host tty env_path os_type;;
     let! verified := OnStdout.verify_installation host tty env_path os_type in
     (if negb verified then
        OnStdout.print_colored tty
          "Installation verification failed. Some packages may not work correctly."
          YELLOW;;
        OnStdout.print_colored tty (nl +:+ "Troubleshooting:") CYAN;;
        OnStdout.print_colored tty
          " -  Follow the troubleshooting steps on the handout if you are having issues!"
          YELLOW
      else ret tt);;
     OnStdout.print_next_steps host tty env_path os_type).
Proof.
  pose proof on_stdout_setup_jupyter_kernel.
  pose proof on_stdout_verify_installation.
  pose proof on_stdout_print_next_steps.
  on_stdout_step.
Qed.


End OnStdoutOutcomes.



(** A run that installs everything, with the standard output on a full
    device: status 120. *)
Example script_on_full_device :
  snd (OnStdout.script
         (custom_host (fun p => bool_decide (p = [REQUIREMENTS_FILE])) "n"
            (fun _ => 0)) full_stdout tt)
  = 120
  /\ snd (OnStdout.script
            (custom_host (fun p => bool_decide (p = [REQUIREMENTS_FILE])) "n"
               (fun _ => 0)) utf8_stdout tt)
     = 0.
Proof. split; vm_compute; reflexivity. Qed.

(** *** [verify_installation] *)

Section TakesAll.

Context {W : Type} (host : Host W) (tty : Stdout W).
Context (Hall : OnStdout.takes_all tty).

(** On a standard output that takes every line, the steps run as in
    [Setup]. *)
Lemma print_colored_same message color s :
  OnStdout.print_colored tty message color s = print_colored message color s.
Proof.
  unfold OnStdout.print_colored, OnStdout.print_line. rewrite Hall. reflexivity.
Qed.

Lemma bind_same {A B} (c c' : M (st (W := W)) exception A)
    (k k' : A -> M st exception B) s :
  c s = c' s -> (forall a s1, k a s1 = k' a s1) -> bind c k s = bind c' k' s.
Proof.
  intros Hc Hk. unfold bind. rewrite Hc.
  destruct (c' s) as [s1 [a | e]]; [apply Hk | reflexivity].
Qed.

Lemma run_command_same cmd check s :
  OnStdout.run_command host tty cmd check s = run_command host cmd check s.
Proof.
  unfold OnStdout.run_command, run_command, catch.
  destruct (bind (subprocess_run host cmd check) (fun result => ret (Some result)) s)
    as [s1 [result | e]]; [reflexivity |].
  destruct e; try reflexivity.
  apply bind_same; [apply print_colored_same | intros _ s2].
  apply bind_same; [apply print_colored_same | reflexivity].
Qed.

Lemma verify_imports_same python_exe packages s :
  OnStdout.verify_imports host tty python_exe packages s
  = verify_imports host python_exe packages s.
Proof.
  revert s. induction packages as [| package rest IH]; intros s;
    cbn [OnStdout.verify_imports verify_imports]; [reflexivity |].
  apply bind_same; [apply run_command_same | intros [r |] s1].
  - destruct (returncode r =? 0)%Z.
    + apply bind_same; [apply print_colored_same | intros _ s2; apply IH].
    + apply bind_same; [apply print_colored_same | reflexivity].
  - apply bind_same; [apply print_colored_same | reflexivity].
Qed.

Lemma verify_installation_same env_path os_type s :
  OnStdout.verify_installation host tty env_path os_type s
  = verify_installation host env_path os_type s.
Proof.
  unfold OnStdout.verify_installation, verify_installation. cbv zeta.
  apply bind_same; [apply print_colored_same | intros _ s1].
  apply verify_imports_same.
Qed.

End TakesAll.

(** X12.  On a standard output that takes every line: when every import
    works, [verify_installation] returns [True] after printing its first
    line and one line per package, in the order of the list. *)
Theorem verify_installation_all_ok {W} (host : Host W) (tty : Stdout W)
    (env_path : path) (os_type : string) (w : W) (out : list string) :
  OnStdout.takes_all tty ->
  (forall package,
      In package test_imports ->
      always_succeeds host (import_command host env_path os_type package)) ->
  exists w',
    OnStdout.verify_installation host tty env_path os_type (w, out)
    = ((w', out ++ (CYAN +:+ "Verifying installation..." +:+ NC)
                   :: ok_lines test_imports),
       Ok true).
Proof.
  intros Hall Hok. rewrite (verify_installation_same host tty Hall).
  unfold verify_installation. cbv zeta. run_print.
  destruct (verify_imports_all_ok host _ _ Hok w
              (out ++ [CYAN +:+ "Verifying installation..." +:+ NC]))
    as (w' & E).
  exists w'. rewrite <- app_assoc in E. exact E.
Qed.

Lemma verify_installation_all_ok_witness :
  snd (OnStdout.verify_installation (linux_host (3, 11, 0) 0) utf8_stdout
         [".."; ENV_NAME] "linux" (tt, []))
  = Ok true.
Proof.
  destruct (verify_installation_all_ok (linux_host (3, 11, 0) 0) utf8_stdout
              [".."; ENV_NAME] "linux" tt []) as (w' & ->).
  - intros line w. reflexivity.
  - intros package _ w. exists w. reflexivity.
  - reflexivity.
Defined.

(** X13.  On a standard output that takes every line,
    [verify_installation] stops at the first package whose import fails.
    If the imports of the packages before it work, it prints a line for
    each of them, then the two failure lines of [run_command] and the line
    naming the package, and returns [False]; the packages after it are not
    tried. *)
Theorem verify_installation_stops_at_first_failure {W} (host : Host W)
    (tty : Stdout W) (env_path : path) (os_type : string)
    (before : list string) (package : string) (after : list string)
    (w : W) (out : list string) :
  OnStdout.takes_all tty ->
  test_imports = before ++ package :: after ->
  (forall p,
      In p before ->
      always_succeeds host (import_command host env_path os_type p)) ->
  always_fails host (import_command host env_path os_type package) ->
  exists w' code,
    OnStdout.verify_installation host tty env_path os_type (w, out)
    = ((w', out ++ (CYAN +:+ "Verifying installation..." +:+ NC)
                   :: ok_lines before
                   ++ failure_lines host
                        (import_command host env_path os_type package) code
                   ++ [RED +:+ ("✗ " +:+ package +:+ " - Import failed") +:+ NC]),
       Ok false).
Proof.
  intros Hall Hsplit Hok Hf. rewrite (verify_installation_same host tty Hall).
  unfold verify_installation. cbv zeta. run_print.
  change ["numpy"; "tensorflow"; "pandas"; "matplotlib"; "sklearn"; "PIL"; "h5py"]
    with test_imports.
  rewrite Hsplit.
  destruct (verify_imports_first_failure host _ _ _ after Hok Hf w
              (out ++ [CYAN +:+ "Verifying installation..." +:+ NC]))
    as (w' & code & E).
  exists w', code. rewrite <- app_assoc in E. exact E.
Qed.

Lemma verify_installation_stops_at_first_failure_witness :
  snd (OnStdout.verify_installation (linux_host (3, 11, 0) 1) utf8_stdout
         [".."; ENV_NAME] "linux" (tt, []))
  = Ok false.
Proof.
  destruct (verify_installation_stops_at_first_failure
              (linux_host (3, 11, 0) 1) utf8_stdout [".."; ENV_NAME] "linux"
              [] "numpy"
              ["tensorflow"; "pandas"; "matplotlib"; "sklearn"; "PIL"; "h5py"]
              tt []) as (w' & code & ->).
  - intros line w. reflexivity.
  - reflexivity.
  - intros p [].
  - intros w. exists w, 1. split; [reflexivity | lia].
  - reflexivity.
Defined.

(** *** The whole script *)

(** X16.  Once the packages are installed, only the host can stop the
    script.  If, in the run of [main], the Python version is accepted, the
    system is detected, the system dependencies are reported present, the
    environment is created or kept and the packages are installed, then
    [main] returns, and the script ends with status 0 (120 when the
    standard output cannot be flushed), unless a host failure is raised: an
    interrupt, an operation of the host that fails, a line the standard
    output refuses.  Whether the registration of the kernel and the imports
    of the verification succeed plays no part. *)
Theorem script_succeeds_after_install {W} (host : Host W) (tty : Stdout W)
    (w : W) (s1 s2 s3 s4 s5 : st) (os_type : string) (silicon : bool)
    (env_path : path) :
  OnStdout.check_python_version host tty (w, header) = (s1, Ok true) ->
  OnStdout.get_os_info host tty s1 = (s2, Ok (os_type, silicon)) ->
  OnStdout.check_system_dependencies host tty os_type s2 = (s3, Ok true) ->
  OnStdout.create_virtual_environment host tty s3 = (s4, Ok (Some env_path)) ->
  OnStdout.install_requirements host tty env_path os_type s4 = (s5, Ok true) ->
  match OnStdout.main host tty (w, []) with
  | (s, Ok _) =>
      snd (OnStdout.script host tty w) = (if flushes W tty (fst s) then 0 else 120)
  | (s, Raise e) => host_failure e
  end.
Proof.
  intros H1 H2 H3 H4 H5.
  assert (Hmain : match snd (OnStdout.main host tty (w, [])) with
                  | Ok _ => True
                  | Raise e => host_failure e
                  end).
  { unfold OnStdout.main.
    destruct (print_colored_cases tty "CSCI 1470 Deep Learning Environment Setup"
                CYAN w []) as [[text E] | E].
    { erewrite bind_raise by exact E. right. eauto. }
    erewrite bind_ok by exact E. cbv beta iota.
    match goal with |- context [bind (OnStdout.print_colored _ ?m ?c) _ (w, ?o)] =>
      destruct (print_colored_cases tty m c w o) as [[text E2] | E2] end.
    { erewrite bind_raise by exact E2. right. eauto. }
    erewrite bind_ok by exact E2. cbv beta iota.
    run_with H1. cbn [negb]. run_with H2. run_with H3. cbn [negb].
    run_with H4. run_with H5. cbn [negb].
    apply (on_stdout_after_install host tty host_failure).
    - intros cmd. apply outcome_act.
    - intros text. right. eauto. }
  destruct (OnStdout.main host tty (w, [])) as [s [u | e]] eqn:E.
  - apply (script_returned host tty w s u E).
  - exact Hmain.
Qed.

Lemma script_succeeds_after_install_witness :
  snd (OnStdout.script
         (custom_host (fun p => bool_decide (p = [REQUIREMENTS_FILE])) "n"
            installs_only) utf8_stdout tt)
  = 0.
Proof.
  pose (host := custom_host (fun p => bool_decide (p = [REQUIREMENTS_FILE])) "n"
                  installs_only).
  pose (s1 := fst (OnStdout.check_python_version host utf8_stdout (tt, header))).
  pose (s2 := fst (OnStdout.get_os_info host utf8_stdout s1)).
  pose (s3 := fst (OnStdout.check_system_dependencies host utf8_stdout "linux" s2)).
  pose (s4 := fst (OnStdout.create_virtual_environment host utf8_stdout s3)).
  pose (s5 := fst (OnStdout.install_requirements host utf8_stdout
                     [".."; ENV_NAME] "linux" s4)).
  generalize (script_succeeds_after_install host utf8_stdout tt s1 s2 s3 s4 s5
                "linux" false [".."; ENV_NAME]).
  change (custom_host (fun p => bool_decide (p = [REQUIREMENTS_FILE])) "n"
            installs_only) with host.
  destruct (OnStdout.main host utf8_stdout (tt, [])) as [s [u | e]] eqn:E.
  - intros H. apply H; vm_compute; reflexivity.
  - vm_compute in E. discriminate E.
Defined.

End SetupExtras.
